(** * Verification of the order/sales ETL scripts

    A shallow embedding of the three pipelines of the repository:

    - [2a.EL.py]   (MSSQL orders to BigQuery),
    - [3a.ETL.py]  (hard-coded rows stamped and loaded),
    - [3b.ETL.py]  (CSV extract, validate/enrich transform, BigQuery load),

    followed by the properties of the specification, proved or refuted on
    that embedding.

    Conventions.  A Python [str] is a [string].  Modules [PyStr], [PyInt],
    [PyFloat] and [PyDate] embed [str.strip], [str.title], [int], [float]
    and [strptime] character for character on ASCII text (code points
    below 128); module [Csv] states the transformer for any string
    built-ins and for rows that hold [None].  A Python [int] is a [Z].  A Python [float] is an IEEE-754 binary64 value, a
    [spec_float] used at precision 53 and maximal exponent 1024.  A [dict]
    with string keys is a [gmap string _].  Code that can raise returns a
    [result]; code that talks to the outside world threads a [World]. *)

From Stdlib Require Import ZArith List Ascii Floats.SpecFloat.
From stdpp Require Import base option list gmap strings.

Open Scope Z_scope.

(** ** Exceptions and results *)

Inductive exn : Type :=
  | ValueError
  | KeyError
  | OverflowError
  | NotFound
  | Conflict
  | OSError
  | DatabaseError
  | GoogleAPIError
  | AttributeError
  | TypeError.

Global Instance exn_eq_dec : EqDecision exn.
Proof. solve_decision. Defined.

Inductive result (A : Type) : Type :=
  | Ok (a : A)
  | Raise (e : exn).
Arguments Ok {A} a.
Arguments Raise {A} e.

Global Instance result_ret : MRet result := λ A a, Ok a.
Global Instance result_bind : MBind result := λ A B f m,
  match m with
  | Ok a => f a
  | Raise e => Raise e
  end.

(** ** Python strings *)

Module PyStr.

Definition code (c : ascii) : N := N_of_ascii c.

(** [str.isspace] on ASCII: TAB..CR, FS..US and the space. *)
Definition isspace (c : ascii) : bool :=
  let n := code c in
  ((9 <=? n) && (n <=? 13) || (28 <=? n) && (n <=? 32))%N.

Definition isdigit (c : ascii) : bool :=
  let n := code c in ((48 <=? n) && (n <=? 57))%N.

Definition digit_value (c : ascii) : Z := Z.of_N (code c) - 48.

Definition isupper (c : ascii) : bool :=
  let n := code c in ((65 <=? n) && (n <=? 90))%N.

Definition islower (c : ascii) : bool :=
  let n := code c in ((97 <=? n) && (n <=? 122))%N.

Definition iscased (c : ascii) : bool := isupper c || islower c.

Definition upper (c : ascii) : ascii :=
  if islower c then ascii_of_N (code c - 32) else c.

Definition lower (c : ascii) : ascii :=
  if isupper c then ascii_of_N (code c + 32) else c.

(** C-locale [isspace], the whitespace [int] and [float] skip around an
    ASCII argument: TAB..CR and the space. *)
Definition isspace_c (c : ascii) : bool :=
  let n := code c in ((9 <=? n) && (n <=? 13) || (n =? 32))%N.

Fixpoint lstrip_with (sp : ascii → bool) (s : string) : string :=
  match s with
  | EmptyString => EmptyString
  | String c r => if sp c then lstrip_with sp r else s
  end.

Definition strip_with (sp : ascii → bool) (s : string) : string :=
  String.rev (lstrip_with sp (String.rev (lstrip_with sp s))).

(** [s.strip()] *)
Definition strip (s : string) : string := strip_with isspace s.

(** [s.title()]: a cased character is upper-cased when the character
    before it is not cased, and lower-cased otherwise. *)
Fixpoint title_from (prev_cased : bool) (s : string) : string :=
  match s with
  | EmptyString => EmptyString
  | String c r =>
      if iscased c
      then String (if prev_cased then lower c else upper c) (title_from true r)
      else String c (title_from false r)
  end.

Definition title (s : string) : string := title_from false s.

(** Leading decimal digits of a character list, and what follows them. *)
Fixpoint span_digits (cs : list ascii) : list Z * list ascii :=
  match cs with
  | c :: r =>
      if isdigit c
      then let '(ds, rest) := span_digits r in (digit_value c :: ds, rest)
      else ([], cs)
  | [] => ([], [])
  end.

(** Value of a list of decimal digits, most significant first. *)
Definition of_digits (ds : list Z) : Z :=
  fold_left (λ acc d, 10 * acc + d) ds 0.

End PyStr.

(** ** Python [int(s)] for a string argument, base 10 *)

Module PyInt.
Import PyStr.

(** [sys.int_info.default_max_str_digits] *)
Definition max_str_digits : nat := 4300.

(** Digits separated by at most one underscore: [D (_? D)*]. *)
Fixpoint digits_with_underscores (cs : list ascii) : option (list Z) :=
  match cs with
  | c :: rest =>
      if isdigit c then
        match rest with
        | [] => Some [digit_value c]
        | "_"%char :: rest' => cons (digit_value c) <$> digits_with_underscores rest'
        | _ => cons (digit_value c) <$> digits_with_underscores rest
        end
      else None
  | [] => None
  end.

(** Surrounding whitespace is dropped, one sign is allowed, and anything
    else raises [ValueError]. *)
Definition of_str (s : string) : result Z :=
  let cs := String.list_ascii_of_string (strip_with isspace_c s) in
  let '(neg, body) :=
    match cs with
    | "-"%char :: r => (true, r)
    | "+"%char :: r => (false, r)
    | _ => (false, cs)
    end in
  match digits_with_underscores body with
  | Some ds =>
      if (max_str_digits <? length ds)%nat then Raise ValueError
      else Ok (if neg then - of_digits ds else of_digits ds)
  | None => Raise ValueError
  end.

End PyInt.

(** ** Python floats: IEEE-754 binary64 *)

Module PyFloat.
Import PyStr.

Definition prec : Z := 53.
Definition emax : Z := 1024.

Definition mul : spec_float → spec_float → spec_float := SFmul prec emax.
Definition sub : spec_float → spec_float → spec_float := SFsub prec emax.

(** [x < y], [x <= y]; every comparison with a NaN is [False]. *)
Definition ltb : spec_float → spec_float → bool := SFltb.
Definition leb : spec_float → spec_float → bool := SFleb.

(** Conversion of an [int] operand of a float operation: rounded to
    nearest-even, [OverflowError] when the result is not finite. *)
Definition of_int (n : Z) : result spec_float :=
  match binary_normalize prec emax n 0 false with
  | S754_infinity _ => Raise OverflowError
  | f => Ok f
  end.

(** Small integer constants of the source ([0], [1], [500], [1000]) are
    exact. *)
Definition of_small_int (n : Z) : spec_float :=
  binary_normalize prec emax n 0 false.

(** The binary64 nearest to [(-1)^s * m * 10^e] for [0 <= m], ties to
    even, overflowing to an infinity: what [strtod] returns. *)
Definition of_decimal (s : bool) (m e : Z) : spec_float :=
  match m with
  | Zpos p =>
      if 0 <=? e
      then binary_round prec emax s (Z.to_pos (m * 10 ^ e)) 0
      else SFdiv prec emax (S754_finite s p 0)
                           (S754_finite false (Z.to_pos (10 ^ (- e))) 0)
  | _ => S754_zero s
  end.

(** Nearest integer to [a / b] for [0 < b], ties to even. *)
Definition Z_round_half_even (a b : Z) : Z :=
  let q := a / b in
  match 2 * (a mod b) ?= b with
  | Lt => q
  | Gt => q + 1
  | Eq => if Z.even q then q else q + 1
  end.

(** [round(x, 2)]: [x] is converted to the nearest decimal with two
    fractional digits (ties to even, on the exact value of [x]) and that
    decimal is converted back.  Infinities and NaN round to themselves;
    a finite value with a non-negative binary exponent is an integer and
    rounds to itself. *)
Definition round2 (x : spec_float) : spec_float :=
  match x with
  | S754_finite s m e =>
      if 0 <=? e then x
      else of_decimal s (Z_round_half_even (Zpos m * 100) (2 ^ (- e))) (-2)
  | _ => x
  end.

(** Each underscore must stand between two digits; they are then
    dropped. *)
Fixpoint drop_underscores (prev : option ascii) (cs : list ascii)
  : option (list ascii) :=
  match cs with
  | [] => Some []
  | "_"%char :: r =>
      match prev, r with
      | Some p, n :: _ =>
          if isdigit p && isdigit n then drop_underscores (Some "_"%char) r
          else None
      | _, _ => None
      end
  | c :: r => cons c <$> drop_underscores (Some c) r
  end.

(** [digits [. digits] [(e|E) [sign] digits]] with at least one mantissa
    digit, as a pair (mantissa, decimal exponent). *)
Definition parse_decimal (cs : list ascii) : option (Z * Z) :=
  let '(ip, r1) := span_digits cs in
  let '(fp, r2) :=
    match r1 with
    | "."%char :: r => span_digits r
    | _ => ([], r1)
    end in
  let m := of_digits (ip ++ fp) in
  let shift := Z.of_nat (length fp) in
  match ip ++ fp with
  | [] => None
  | _ :: _ =>
      match r2 with
      | [] => Some (m, - shift)
      | c :: r3 =>
          if bool_decide (c = "e"%char ∨ c = "E"%char) then
            let '(eneg, r4) :=
              match r3 with
              | "-"%char :: r => (true, r)
              | "+"%char :: r => (false, r)
              | _ => (false, r3)
              end in
            match span_digits r4 with
            | (d :: ds, []) =>
                let ex := of_digits (d :: ds) in
                Some (m, (if eneg then - ex else ex) - shift)
            | _ => None
            end
          else None
      end
  end.

(** [float(s)] for a string argument. *)
Definition of_str (s : string) : result spec_float :=
  match drop_underscores None
          (String.list_ascii_of_string (strip_with isspace_c s)) with
  | None => Raise ValueError
  | Some cs =>
      let '(neg, body) :=
        match cs with
        | "-"%char :: r => (true, r)
        | "+"%char :: r => (false, r)
        | _ => (false, cs)
        end in
      let word := String.string_of_list_ascii (map lower body) in
      if bool_decide (word = "inf" ∨ word = "infinity") then Ok (S754_infinity neg)
      else if bool_decide (word = "nan") then Ok S754_nan
      else
        match parse_decimal body with
        | Some (m, e) => Ok (of_decimal neg m e)
        | None => Raise ValueError
        end
  end.

End PyFloat.

(** ** [datetime.strptime(s, "%Y-%m-%d").date()] and [date.isoformat()] *)

Module PyDate.
Import PyStr.

Record date : Type := { year : Z; month : Z; day : Z }.

Definition is_leap (y : Z) : bool :=
  (y mod 4 =? 0) && (negb (y mod 100 =? 0) || (y mod 400 =? 0)).

Definition days_in_month (y m : Z) : Z :=
  match m with
  | 2 => if is_leap y then 29 else 28
  | 4 | 6 | 9 | 11 => 30
  | _ => 31
  end.

(** The directives are regular expressions tried as ordered
    alternatives; a matcher returns every way to match a prefix, in the
    order the regex engine tries them. *)
Definition matcher : Type := list ascii → list (Z * list ascii).

Definition in_range (lo hi c : ascii) : bool :=
  ((code lo <=? code c) && (code c <=? code hi))%N.

(** One character in [lo..hi] followed by one in [lo'..hi']. *)
Definition two (lo hi lo' hi' : ascii) : matcher := λ cs,
  match cs with
  | a :: b :: r =>
      if in_range lo hi a && in_range lo' hi' b
      then [(10 * digit_value a + digit_value b, r)] else []
  | _ => []
  end.

Definition one (lo hi : ascii) : matcher := λ cs,
  match cs with
  | a :: r => if in_range lo hi a then [(digit_value a, r)] else []
  | _ => []
  end.

(** A space followed by one character in [lo..hi]. *)
Definition space_one (lo hi : ascii) : matcher := λ cs,
  match cs with
  | a :: b :: r =>
      if bool_decide (a = " "%char) && in_range lo hi b
      then [(digit_value b, r)] else []
  | _ => []
  end.

(** [%Y] is [\d\d\d\d]. *)
Definition re_Y : matcher := λ cs,
  match cs with
  | a :: b :: c :: d :: r =>
      if isdigit a && isdigit b && isdigit c && isdigit d
      then [(of_digits (digit_value <$> [a; b; c; d]), r)] else []
  | _ => []
  end.

(** [%m] is [1[0-2]|0[1-9]|[1-9]]. *)
Definition re_m : matcher := λ cs,
  two "1" "1" "0" "2" cs ++ two "0" "0" "1" "9" cs ++ one "1" "9" cs.

(** [%d] is [3[0-1]|[1-2]\d|0[1-9]|[1-9]| [1-9]]. *)
Definition re_d : matcher := λ cs,
  two "3" "3" "0" "1" cs ++ two "1" "2" "0" "9" cs ++ two "0" "0" "1" "9" cs
    ++ one "1" "9" cs ++ space_one "1" "9" cs.

Definition literal (c : ascii) (cs : list ascii) : list (list ascii) :=
  match cs with
  | a :: r => if bool_decide (a = c) then [r] else []
  | [] => []
  end.

(** First match of [%Y-%m-%d] at the start of the input, with the
    unconsumed rest. *)
Definition re_match (cs : list ascii) : option (Z * Z * Z * list ascii) :=
  head (yr ← re_Y cs;
        r1 ← literal "-" yr.2;
        mr ← re_m r1;
        r2 ← literal "-" mr.2;
        dr ← re_d r2;
        [(yr.1, mr.1, dr.1, dr.2)]).

(** [ValueError] when the format does not match, when unconverted data
    remains, when the year is 0 and when the day is out of range for the
    month. *)
Definition strptime (s : string) : result date :=
  match re_match (String.list_ascii_of_string s) with
  | Some (y, m, d, []) =>
      if (1 <=? y) && (d <=? days_in_month y m)
      then Ok {| year := y; month := m; day := d |}
      else Raise ValueError
  | _ => Raise ValueError
  end.

Definition digit_char (n : Z) : ascii := ascii_of_N (Z.to_N (48 + n mod 10)).

(** ["%04d-%02d-%02d" % (year, month, day)] for the dates [strptime]
    builds (at most four, two and two digits). *)
Definition isoformat (d : date) : string :=
  String.string_of_list_ascii
    [digit_char (year d / 1000); digit_char (year d / 100);
     digit_char (year d / 10); digit_char (year d); "-"%char;
     digit_char (month d / 10); digit_char (month d); "-"%char;
     digit_char (day d / 10); digit_char (day d)].

End PyDate.

(** ** Data model of [3b.ETL.py] *)

(** A raw record whose values are all strings: what [csv.DictReader]
    yields for a line that has a value for every column.  The records of
    shorter lines, which hold [None], are those of module [Csv] below. *)
Abbreviation RawRecord := (gmap string string).

(** [row.get(key, fallback)] *)
Definition get (row : RawRecord) (key fallback : string) : string :=
  default fallback (row !! key).

(** Values stored in the dictionaries the scripts build. *)
Inductive pyval : Type :=
  | VStr (s : string)
  | VInt (n : Z)
  | VFloat (x : spec_float).

(** A dictionary with string keys: an enriched record of the transform, a
    row handed to the loader. *)
Abbreviation Row := (gmap string pyval).

(** What the scripts print, one constructor per [print] call. *)
Inductive event : Type :=
  | ExtractReading (path : string)
  | ExtractedCount (n : nat)
  | TransformStart
  | SkippingInvalidRow (row : RawRecord)
  | ErrorProcessingRow (row : RawRecord) (e : exn)
  | TransformedCount (n : nat)
  | LoadWriting (project dataset table : string)
  | DatasetExists (dataset : string)
  | DatasetCreated (dataset : string)
  | TableExists (table : string)
  | TableCreated (table : string)
  | LoadedCount (n : nat)
  | ReportHeader
  | ReportLine (customer : string) (total_sales : spec_float) (order_count : Z)
  | Banner (text : string)
  | LoadedRows (n : nat)
  | ExtractedRows (n : nat)
  | LoadSucceeded.

(** ** The transformer of [3b.ETL.py] *)

(** Float constants of the source. *)
Definition f_zero : spec_float := S754_zero false.
Definition f_tenth : spec_float := PyFloat.of_decimal false 1 (-1).

(** The body of the [try] block for one row: [Ok None] is the [continue]
    of the validity test, [Ok (Some r)] the appended dictionary. *)
Definition try_row (row : RawRecord) : result (option Row) :=
  let order_id := PyStr.strip (get row "order_id" "") in
  let customer := PyStr.title (PyStr.strip (get row "customer_name" "Unknown")) in
  let product := PyStr.strip (get row "product" "") in
  quantity ← PyInt.of_str (get row "quantity" "0");
  price ← PyFloat.of_str (get row "price" "0");
  let order_date_str := PyStr.strip (get row "order_date" "") in
  if bool_decide (order_id = "") || (quantity <=? 0)
     || PyFloat.leb price (PyFloat.of_small_int 0)
  then mret None
  else
    order_date ← PyDate.strptime order_date_str;
    fquantity ← PyFloat.of_int quantity;
    let total_amount := PyFloat.round2 (PyFloat.mul fquantity price) in
    let discount :=
      if PyFloat.ltb (PyFloat.of_small_int 1000) total_amount
      then f_tenth else f_zero in
    let final_amount :=
      PyFloat.round2
        (PyFloat.mul total_amount (PyFloat.sub (PyFloat.of_small_int 1) discount)) in
    let category :=
      if PyFloat.leb (PyFloat.of_small_int 500) final_amount
      then "High Value" else "Standard" in
    mret (Some {[ "order_id" := VStr order_id;
                  "customer" := VStr customer;
                  "product" := VStr product;
                  "quantity" := VInt quantity;
                  "price" := VFloat price;
                  "order_date" := VStr (PyDate.isoformat order_date);
                  "total_amount" := VFloat total_amount;
                  "discount_rate" := VFloat discount;
                  "final_amount" := VFloat final_amount;
                  "category" := VStr category ]}).

(** [except (ValueError, KeyError)] *)
Definition caught (e : exn) : bool :=
  match e with
  | ValueError | KeyError => true
  | _ => false
  end.

(** The [for] loop, with the list built so far and the lines printed so
    far.  An exception the handler does not catch leaves the loop and
    the function. *)
Fixpoint transform_loop (rows : list RawRecord) (transformed : list Row)
    (out : list event) : list event * result (list Row) :=
  match rows with
  | [] => (out ++ [TransformedCount (length transformed)], Ok transformed)
  | row :: rest =>
      match try_row row with
      | Ok (Some r) => transform_loop rest (transformed ++ [r]) out
      | Ok None => transform_loop rest transformed (out ++ [SkippingInvalidRow row])
      | Raise e =>
          if caught e
          then transform_loop rest transformed (out ++ [ErrorProcessingRow row e])
          else (out, Raise e)
      end
  end.

Definition transform_sales_data (raw_data : list RawRecord)
  : list event * result (list Row) :=
  transform_loop raw_data [] [TransformStart].

(** *** The sample data of the main block *)

Definition sample_row (order_id customer_name product quantity price order_date : string)
  : RawRecord :=
  {[ "order_id" := order_id; "customer_name" := customer_name;
     "product" := product; "quantity" := quantity; "price" := price;
     "order_date" := order_date ]}.

(** The rows the main block writes to [sales_data.csv]. *)
Definition sample_rows : list RawRecord :=
  [ sample_row "ORD001" "john doe" "Laptop" "2" "899.99" "2026-02-15";
    sample_row "ORD002" "JANE SMITH" "Mouse" "5" "25.50" "2026-02-16";
    sample_row "ORD003" "alice brown" "Monitor" "3" "450.00" "2026-02-17";
    sample_row "ORD004" "bob wilson" "Keyboard" "10" "75.00" "2026-02-18";
    sample_row "ORD005" "john doe" "Desk" "1" "599.99" "2026-02-20";
    sample_row "INVALID" "test" "Bad" "-1" "0" "2026-02-21" ].

(** ** The transformer on rows as [csv.DictReader] yields them

    [csv.DictReader] stores [None] under the columns a short line does not
    reach, and the built-ins the row handler calls on strings work on
    every Unicode string.  Here a value of a row is a string or [None],
    and the string built-ins are a parameter; [text_builtins] is their
    embedding on ASCII text.  On rows whose values are all strings, with
    [text_builtins], this is [transform_sales_data] above
    (lemma [transform_of_text]). *)

Module Csv.

Inductive cell : Type :=
  | Str (s : string)
  | NoneCell.

Abbreviation RawRecord := (gmap string cell).

(** What the row handler calls on a [str]: [s.strip()], [s.title()],
    [int(s)], [float(s)] and [datetime.strptime(s, "%Y-%m-%d").date()]. *)
Record Builtins : Type := {
  str_strip : string → string;
  str_title : string → string;
  int_of_str : string → result Z;
  float_of_str : string → result spec_float;
  strptime : string → result PyDate.date
}.

Definition text_builtins : Builtins :=
  {| str_strip := PyStr.strip;
     str_title := PyStr.title;
     int_of_str := PyInt.of_str;
     float_of_str := PyFloat.of_str;
     strptime := PyDate.strptime |}.

(** [row.get(key, fallback)]: the fallback is used only when the key is
    absent, not when its value is [None]. *)
Definition get (row : RawRecord) (key fallback : string) : cell :=
  default (Str fallback) (row !! key).

(** [value.strip()]: [None] has no attribute [strip]. *)
Definition strip (B : Builtins) (value : cell) : result string :=
  match value with
  | Str s => Ok (str_strip B s)
  | NoneCell => Raise AttributeError
  end.

(** [int(value)]: [None] is not a string or a number. *)
Definition int (B : Builtins) (value : cell) : result Z :=
  match value with
  | Str s => int_of_str B s
  | NoneCell => Raise TypeError
  end.

(** [float(value)] *)
Definition float (B : Builtins) (value : cell) : result spec_float :=
  match value with
  | Str s => float_of_str B s
  | NoneCell => Raise TypeError
  end.

(** The body of the [try] block, statement by statement. *)
Definition try_row (B : Builtins) (row : RawRecord) : result (option Row) :=
  order_id ← strip B (get row "order_id" "");
  customer_name ← strip B (get row "customer_name" "Unknown");
  let customer := str_title B customer_name in
  product ← strip B (get row "product" "");
  quantity ← int B (get row "quantity" "0");
  price ← float B (get row "price" "0");
  order_date_str ← strip B (get row "order_date" "");
  if bool_decide (order_id = "") || (quantity <=? 0)
     || PyFloat.leb price (PyFloat.of_small_int 0)
  then mret None
  else
    order_date ← strptime B order_date_str;
    fquantity ← PyFloat.of_int quantity;
    let total_amount := PyFloat.round2 (PyFloat.mul fquantity price) in
    let discount :=
      if PyFloat.ltb (PyFloat.of_small_int 1000) total_amount
      then f_tenth else f_zero in
    let final_amount :=
      PyFloat.round2
        (PyFloat.mul total_amount (PyFloat.sub (PyFloat.of_small_int 1) discount)) in
    let category :=
      if PyFloat.leb (PyFloat.of_small_int 500) final_amount
      then "High Value" else "Standard" in
    mret (Some {[ "order_id" := VStr order_id;
                  "customer" := VStr customer;
                  "product" := VStr product;
                  "quantity" := VInt quantity;
                  "price" := VFloat price;
                  "order_date" := VStr (PyDate.isoformat order_date);
                  "total_amount" := VFloat total_amount;
                  "discount_rate" := VFloat discount;
                  "final_amount" := VFloat final_amount;
                  "category" := VStr category ]}).

(** What the transform prints. *)
Inductive line : Type :=
  | Cleaning
  | SkippingInvalidRow (row : RawRecord)
  | ErrorProcessingRow (row : RawRecord) (e : exn)
  | Transformed (n : nat).

(** The [for] loop: [caught] is the [except (ValueError, KeyError)] of
    the source, and any other exception leaves the function. *)
Fixpoint transform_loop (B : Builtins) (rows : list RawRecord)
    (transformed : list Row) (out : list line) : list line * result (list Row) :=
  match rows with
  | [] => (out ++ [Transformed (length transformed)], Ok transformed)
  | row :: rest =>
      match try_row B row with
      | Ok (Some r) => transform_loop B rest (transformed ++ [r]) out
      | Ok None => transform_loop B rest transformed (out ++ [SkippingInvalidRow row])
      | Raise e =>
          if caught e
          then transform_loop B rest transformed (out ++ [ErrorProcessingRow row e])
          else (out, Raise e)
      end
  end.

Definition transform_sales_data (B : Builtins) (raw_data : list RawRecord)
  : list line * result (list Row) :=
  transform_loop B raw_data [] [Cleaning].

(** *** Definitions used to state its properties *)

(** A row whose values are all strings. *)
Definition of_text (row : gmap string string) : RawRecord := Str <$> row.

(** The validity conditions of the specification for one record: the
    four fields are strings, the trimmed order id is not empty, the
    quantity is an integer above zero, the price a float above zero, and
    the trimmed date parses. *)
Definition valid_record (B : Builtins) (row : RawRecord) (q : Z) (p : spec_float)
    (d : PyDate.date) : Prop :=
  ∃ order_id quantity price order_date,
    get row "order_id" "" = Str order_id ∧ str_strip B order_id ≠ "" ∧
    get row "quantity" "0" = Str quantity ∧ int_of_str B quantity = Ok q ∧ 0 < q ∧
    get row "price" "0" = Str price ∧ float_of_str B price = Ok p ∧
    PyFloat.ltb (PyFloat.of_small_int 0) p = true ∧
    get row "order_date" "" = Str order_date ∧
    strptime B (str_strip B order_date) = Ok d.

(** The dictionary a row contributes to the output, if any. *)
Definition accepted_record (B : Builtins) (row : RawRecord) : option Row :=
  match try_row B row with
  | Ok (Some r) => Some r
  | _ => None
  end.

(** Whether the handler deals with the row: it is enriched, skipped, or
    raises an exception the [except] clause catches. *)
Definition handled (B : Builtins) (row : RawRecord) : bool :=
  match try_row B row with
  | Raise e => caught e
  | Ok _ => true
  end.

(** The exception of the first row that is not handled. *)
Fixpoint first_uncaught (B : Builtins) (rows : list RawRecord) : option exn :=
  match rows with
  | [] => None
  | row :: rest =>
      match try_row B row with
      | Raise e => if caught e then first_uncaught B rest else Some e
      | Ok _ => first_uncaught B rest
      end
  end.

(** The parsers raise nothing but [ValueError] on a string. *)
Definition value_errors_only (B : Builtins) : Prop :=
  (∀ s e, int_of_str B s = Raise e → e = ValueError) ∧
  (∀ s e, float_of_str B s = Raise e → e = ValueError) ∧
  (∀ s e, strptime B s = Raise e → e = ValueError).

(** The checks the row handler makes before it multiplies: as
    [valid_record], with the price test of the source, [price <= 0]
    false, which a NaN price passes as well. *)
Definition passes_checks (B : Builtins) (row : RawRecord) (q : Z) (p : spec_float)
    (d : PyDate.date) : Prop :=
  ∃ order_id quantity price order_date,
    get row "order_id" "" = Str order_id ∧ str_strip B order_id ≠ "" ∧
    get row "quantity" "0" = Str quantity ∧ int_of_str B quantity = Ok q ∧ 0 < q ∧
    get row "price" "0" = Str price ∧ float_of_str B price = Ok p ∧
    PyFloat.leb p (PyFloat.of_small_int 0) = false ∧
    get row "order_date" "" = Str order_date ∧
    strptime B (str_strip B order_date) = Ok d.

(** The columns whose value is trimmed, and those whose value is
    converted to a number. *)
Definition stripped_columns : list string :=
  ["order_id"; "customer_name"; "product"; "order_date"].
Definition number_columns : list string := ["quantity"; "price"].

(** The four columns the validity test reads. *)
Definition required_columns : list string :=
  ["order_id"; "quantity"; "price"; "order_date"].

(** What the built-ins give on the fallbacks of [row.get]: [""] stays
    empty when trimmed, ["0"] is the integer and the float zero, and the
    empty string is not a date. *)
Definition fallbacks_rejected (B : Builtins) : Prop :=
  str_strip B "" = "" ∧
  int_of_str B "0" = Ok 0 ∧
  float_of_str B "0" = Ok (PyFloat.of_small_int 0) ∧
  strptime B "" = Raise ValueError.

(** The columns the row handler reads. *)
Definition columns : list string :=
  ["order_id"; "customer_name"; "product"; "quantity"; "price"; "order_date"].


(** A record without a [customer_name] column whose quantity is
    [10^309]. *)
Definition anonymous_huge_row : RawRecord :=
  {[ "order_id" := Str "ORD901";
     "quantity" := Str "1000000000000000000000000000000000000000000000000000000000000000000000000000000000000000000000000000000000000000000000000000000000000000000000000000000000000000000000000000000000000000000000000000000000000000000000000000000000000000000000000000000000000000000000000000000000000000000000000000000000000000000000";
     "price" := Str "1.0"; "order_date" := Str "2026-02-22" ]}.

(** A record whose quantity is [10^309] and whose date does not parse:
    the date is rejected before the quantity is multiplied. *)
Definition huge_quantity_bad_date_row : RawRecord :=
  {[ "order_id" := Str "ORD902"; "customer_name" := Str "ian jay";
     "product" := Str "Nut";
     "quantity" := Str "1000000000000000000000000000000000000000000000000000000000000000000000000000000000000000000000000000000000000000000000000000000000000000000000000000000000000000000000000000000000000000000000000000000000000000000000000000000000000000000000000000000000000000000000000000000000000000000000000000000000000000000000";
     "price" := Str "1.0"; "order_date" := Str "22/02/2026" ]}.

(** A record without [customer_name] and [product] columns. *)
Definition anonymous_row : RawRecord :=
  {[ "order_id" := Str "ORD010"; "quantity" := Str "1"; "price" := Str "9.99";
     "order_date" := Str "2026-03-01" ]}.

(** A record without a [price] column. *)
Definition no_price_row : RawRecord :=
  {[ "order_id" := Str "ORD011"; "customer_name" := Str "frank moss";
     "product" := Str "Pen"; "quantity" := Str "4";
     "order_date" := Str "2026-03-02" ]}.

(** The sample rows after a record the handler catches. *)
Definition handled_batch : list RawRecord :=
  huge_quantity_bad_date_row :: (of_text <$> sample_rows).


End Csv.

(** ** The outside world: console, handles, clock, files, warehouse *)

Record schema_field : Type :=
  SchemaField { field_name : string; field_type : string; field_mode : string }.

(** A BigQuery table; the schema is [None] when the load job detects it. *)
Record table : Type := {
  table_schema : option (list schema_field);
  table_rows : list Row
}.

Record dataset : Type := {
  dataset_location : string;
  dataset_tables : gmap string table
}.

(** An open file or connection, named by what it is open on. *)
Inductive handle : Type :=
  | FileHandle (path : string)
  | Connection (connection_string : string).

Global Instance handle_eq_dec : EqDecision handle.
Proof. solve_decision. Defined.

(** The state the scripts act on.  [files] maps a path to what a
    [csv.DictReader] over that file produces: the rows (of a file whose
    lines have a value for every column), or the exception raised while
    reading.  [warehouse] maps a dataset id of the client's project to
    the dataset. *)
Record World : Type := {
  stdout : list event;
  open_handles : list handle;
  clock_reads : nat;
  files : gmap string (result (list RawRecord));
  warehouse : gmap string dataset
}.

(** What the environment answers and the scripts do not control: the
    successive readings of [datetime.utcnow().isoformat()], the outcome of
    the MSSQL connection and query, whether the load job fails, and the
    outcome of the reporting query.  The client constructor and the
    metadata calls are taken to answer: they raise [NotFound] and
    [Conflict] as the warehouse dictates, and nothing else. *)
Record Env : Type := {
  utcnow_isoformat : nat → string;
  mssql_connect : option exn;
  mssql_read_sql : result (list Row);
  load_job_fault : option exn;
  query_outcome : result (list (string * spec_float * Z))
}.

Definition set_stdout (o : list event) (w : World) : World :=
  {| stdout := o; open_handles := open_handles w; clock_reads := clock_reads w;
     files := files w; warehouse := warehouse w |}.
Definition set_open_handles (h : list handle) (w : World) : World :=
  {| stdout := stdout w; open_handles := h; clock_reads := clock_reads w;
     files := files w; warehouse := warehouse w |}.
Definition set_clock_reads (n : nat) (w : World) : World :=
  {| stdout := stdout w; open_handles := open_handles w; clock_reads := n;
     files := files w; warehouse := warehouse w |}.
Definition set_files (f : gmap string (result (list RawRecord))) (w : World) : World :=
  {| stdout := stdout w; open_handles := open_handles w; clock_reads := clock_reads w;
     files := f; warehouse := warehouse w |}.
Definition set_warehouse (b : gmap string dataset) (w : World) : World :=
  {| stdout := stdout w; open_handles := open_handles w; clock_reads := clock_reads w;
     files := files w; warehouse := b |}.

(** Stateful code that can raise: the world is threaded through, and an
    exception keeps the world reached when it was raised. *)
Definition M (A : Type) : Type := World → result A * World.

Global Instance M_ret : MRet M := λ A a w, (Ok a, w).
Global Instance M_bind : MBind M := λ A B f m w,
  match m w with
  | (Ok a, w') => f a w'
  | (Raise e, w') => (Raise e, w')
  end.

Definition raise {A : Type} (e : exn) : M A := λ w, (Raise e, w).

Definition print (e : event) : M unit := λ w,
  (Ok (), set_stdout (stdout w ++ [e]) w).

(** [try: body / except E: handler] for the exceptions [handles] selects. *)
Definition try_except {A : Type} (body : M A) (handles : exn → bool)
    (handler : M A) : M A := λ w,
  match body w with
  | (Raise e, w') => if handles e then handler w' else (Raise e, w')
  | done => done
  end.

Definition acquire (h : handle) : M unit := λ w,
  (Ok (), set_open_handles (h :: open_handles w) w).

(** Closing drops the handles on that path or connection string; the
    scripts never hold two on the same one. *)
Definition release (h : handle) (w : World) : World :=
  set_open_handles (filter (λ h', h' ≠ h) (open_handles w)) w.

Definition close (h : handle) : M unit := λ w, (Ok (), release h w).

(** [with open(path, "r") as f: body]: opening a file that does not exist
    raises; once open, the file is closed when the block is left,
    normally or by an exception. *)
Definition with_open {A : Type} (path : string) (body : M A) : M A := λ w,
  if bool_decide (files w !! path = None)
  then (Raise OSError, w)
  else
    match (acquire (FileHandle path) ;; body) w with
    | (r, w') => (r, release (FileHandle path) w')
    end.

(** One statement per element, in order. *)
Fixpoint for_each {A B : Type} (f : A → M B) (l : list A) : M (list B) :=
  match l with
  | [] => mret []
  | a :: rest => b ← f a; bs ← for_each f rest; mret (b :: bs)
  end.

(** Lines printed by a pure computation are appended to the console. *)
Definition printing {A : Type} (c : list event * result A) : M A := λ w,
  (c.2, set_stdout (stdout w ++ c.1) w).

Section Scripts.

Variable env : Env.

(** [datetime.utcnow().isoformat()]: one more reading of the clock. *)
Definition utcnow : M string := λ w,
  (Ok (utcnow_isoformat env (clock_reads w)), set_clock_reads (S (clock_reads w)) w).

(** *** The BigQuery client, as far as the scripts use it *)

Definition get_dataset (dataset_id : string) : M dataset := λ w,
  match warehouse w !! dataset_id with
  | Some d => (Ok d, w)
  | None => (Raise NotFound, w)
  end.

Definition create_dataset (dataset_id location : string) : M unit := λ w,
  match warehouse w !! dataset_id with
  | Some _ => (Raise Conflict, w)
  | None =>
      (Ok (), set_warehouse
                (<[dataset_id := {| dataset_location := location;
                                    dataset_tables := ∅ |}]> (warehouse w)) w)
  end.

Definition get_table (dataset_id table_id : string) : M table := λ w,
  match warehouse w !! dataset_id with
  | Some d =>
      match dataset_tables d !! table_id with
      | Some t => (Ok t, w)
      | None => (Raise NotFound, w)
      end
  | None => (Raise NotFound, w)
  end.

Definition create_table (dataset_id table_id : string)
    (schema : list schema_field) : M table := λ w,
  match warehouse w !! dataset_id with
  | Some d =>
      match dataset_tables d !! table_id with
      | Some _ => (Raise Conflict, w)
      | None =>
          let t := {| table_schema := Some schema; table_rows := [] |} in
          (Ok t, set_warehouse
                   (<[dataset_id := {| dataset_location := dataset_location d;
                                       dataset_tables := <[table_id := t]> (dataset_tables d) |}]>
                      (warehouse w)) w)
      end
  | None => (Raise NotFound, w)
  end.

(** A load job in append mode, submitted and waited for: it fails as the
    environment decides and otherwise appends the rows, creating the
    table when it is missing. *)
Definition load_job (rows : list Row) (dataset_id table_id : string)
    (schema : option (list schema_field)) : M unit := λ w,
  match load_job_fault env with
  | Some e => (Raise e, w)
  | None =>
      match warehouse w !! dataset_id with
      | Some d =>
          let t := default {| table_schema := schema; table_rows := [] |}
                           (dataset_tables d !! table_id) in
          let t' := {| table_schema := table_schema t;
                       table_rows := table_rows t ++ rows |} in
          (Ok (), set_warehouse
                    (<[dataset_id := {| dataset_location := dataset_location d;
                                        dataset_tables := <[table_id := t']> (dataset_tables d) |}]>
                       (warehouse w)) w)
      | None => (Raise NotFound, w)
      end
  end.

(** [client.query(...)] and the iteration over its result. *)
Definition run_query : M (list (string * spec_float * Z)) := λ w,
  (query_outcome env, w).

(** *** [3b.ETL.py] *)

Definition extract_sales_data (csv_path : string) : M (list RawRecord) :=
  print (ExtractReading csv_path);;
  data ← with_open csv_path
           (λ w, (default (Raise OSError) (files w !! csv_path), w));
  print (ExtractedCount (length data));;
  mret data.

Definition schema : list schema_field :=
  [ SchemaField "order_id" "STRING" "REQUIRED";
    SchemaField "customer" "STRING" "REQUIRED";
    SchemaField "product" "STRING" "REQUIRED";
    SchemaField "quantity" "INTEGER" "REQUIRED";
    SchemaField "price" "FLOAT" "REQUIRED";
    SchemaField "order_date" "DATE" "REQUIRED";
    SchemaField "total_amount" "FLOAT" "REQUIRED";
    SchemaField "discount_rate" "FLOAT" "REQUIRED";
    SchemaField "final_amount" "FLOAT" "REQUIRED";
    SchemaField "category" "STRING" "REQUIRED";
    SchemaField "loaded_at" "TIMESTAMP" "REQUIRED" ].

Definition is_NotFound (e : exn) : bool := bool_decide (e = NotFound).

(** "Create dataset if it doesn't exist" *)
Definition ensure_dataset (dataset_id : string) : M unit :=
  try_except
    (get_dataset dataset_id;; print (DatasetExists dataset_id))
    is_NotFound
    (create_dataset dataset_id "US";; print (DatasetCreated dataset_id)).

(** "Create or get table" *)
Definition ensure_table (dataset_id table_id : string) : M table :=
  try_except
    (t ← get_table dataset_id table_id; print (TableExists table_id);; mret t)
    is_NotFound
    (t ← create_table dataset_id table_id schema;
     print (TableCreated table_id);; mret t).

(** "Add loaded_at timestamp to each row": the clock is read before the
    loop, and the loop stores that one value under ["loaded_at"]. *)
Definition stamp_batch (data : list Row) : M (list Row) :=
  loaded_at ← utcnow;
  mret ((λ row : Row, <["loaded_at" := VStr loaded_at]> row) <$> data).

Definition load_to_bigquery (data : list Row)
    (project_id dataset_id table_id : string) : M unit :=
  print (LoadWriting project_id dataset_id table_id);;
  ensure_dataset dataset_id;;
  ensure_table dataset_id table_id;;
  data ← stamp_batch data;
  load_job data dataset_id table_id (Some schema);;
  print (LoadedCount (length data));;
  print ReportHeader;;
  report ← run_query;
  for_each (λ r : string * spec_float * Z, print (ReportLine r.1.1 r.1.2 r.2)) report;;
  mret ().

(** ["=" * 60] *)
Definition rule : string :=
  "============================================================".

Definition run_etl_pipeline (csv_path project_id dataset_id table_id : string)
  : M unit :=
  print (Banner rule);;
  print (Banner "Starting ETL Pipeline to BigQuery");;
  print (Banner rule);;
  raw_data ← extract_sales_data csv_path;
  transformed_data ← printing (transform_sales_data raw_data);
  load_to_bigquery transformed_data project_id dataset_id table_id;;
  print (Banner rule);;
  print (Banner "ETL Pipeline Complete!");;
  print (Banner rule).

(** *** [3a.ETL.py] *)

Definition sales_data : list Row :=
  [ {[ "order_id" := VStr "ORD001"; "customer" := VStr "Alice";
       "amount" := VFloat (PyFloat.of_decimal false 15000 (-2)) ]};
    {[ "order_id" := VStr "ORD002"; "customer" := VStr "Bob";
       "amount" := VFloat (PyFloat.of_decimal false 20050 (-2)) ]};
    {[ "order_id" := VStr "ORD003"; "customer" := VStr "Alice";
       "amount" := VFloat (PyFloat.of_decimal false 7525 (-2)) ]} ].

(** "TRANSFORM: Add timestamp": the clock is read inside the loop, once
    for each row. *)
Definition add_timestamp (rows : list Row) : M (list Row) :=
  for_each (λ row : Row, now ← utcnow; mret (<["loaded_at" := VStr now]> row)) rows.

Definition etl_to_bigquery : M unit :=
  rows ← add_timestamp sales_data;
  load_job rows "sales_data" "sales" None;;
  print (LoadedRows (length rows)).

(** *** [2a.EL.py] *)

Definition connection_string : string :=
  "
DRIVER={ODBC Driver 17 for SQL Server};
SERVER=your_server.database.windows.net;
DATABASE=your_database;
UID=your_username;
PWD=your_password;
".

(** [pyodbc.connect]: nothing is open when it raises. *)
Definition connect : M handle :=
  match mssql_connect env with
  | Some e => raise e
  | None => acquire (Connection connection_string);; mret (Connection connection_string)
  end.

(** [pd.read_sql(query, conn)] *)
Definition read_sql (conn : handle) : M (list Row) := λ w, (mssql_read_sql env, w).

(** The statements of the script, top to bottom. *)
Definition el_orders_script : M unit :=
  conn ← connect;
  df ← read_sql conn;
  close conn;;
  print (ExtractedRows (length df));;
  load_job df "analytics" "orders_raw" None;;
  print LoadSucceeded.

End Scripts.

(** * Definitions used to state the properties *)

(** The validity conditions of the specification for one raw record, with
    the parsed quantity, price and date. *)
Definition valid_record (row : RawRecord) (q : Z) (p : spec_float)
    (d : PyDate.date) : Prop :=
  PyStr.strip (get row "order_id" "") ≠ "" ∧
  PyInt.of_str (get row "quantity" "0") = Ok q ∧ 0 < q ∧
  PyFloat.of_str (get row "price" "0") = Ok p ∧
  PyFloat.ltb (PyFloat.of_small_int 0) p = true ∧
  PyDate.strptime (PyStr.strip (get row "order_date" "")) = Ok d.

(** The dictionary a row contributes to the output, if any. *)
Definition accepted_record (row : RawRecord) : option Row :=
  match try_row row with
  | Ok (Some r) => Some r
  | _ => None
  end.

(** Whether a row contributes a dictionary. *)
Definition accepts (row : RawRecord) : bool :=
  match try_row row with
  | Ok (Some _) => true
  | _ => false
  end.

(** The exception a row lets through the handler, if any. *)
Definition uncaught (row : RawRecord) : option exn :=
  match try_row row with
  | Raise e => if caught e then None else Some e
  | _ => None
  end.

Fixpoint first_uncaught (rows : list RawRecord) : option exn :=
  match rows with
  | [] => None
  | row :: rest =>
      match uncaught row with
      | Some e => Some e
      | None => first_uncaught rest
      end
  end.

(** A well-formed record whose quantity is [10^309]. *)
Definition huge_quantity_row : RawRecord :=
  sample_row "ORD900" "big buyer" "Bolt"
    "1000000000000000000000000000000000000000000000000000000000000000000000000000000000000000000000000000000000000000000000000000000000000000000000000000000000000000000000000000000000000000000000000000000000000000000000000000000000000000000000000000000000000000000000000000000000000000000000000000000000000000000000"
    "1.0" "2026-02-22".

(** The rows of a table of the warehouse; none when it does not exist. *)
Definition rows_of (b : gmap string dataset) (dataset_id table_id : string)
  : list Row :=
  match b !! dataset_id with
  | Some d =>
      match dataset_tables d !! table_id with
      | Some t => table_rows t
      | None => []
      end
  | None => []
  end.

(** The two creation steps of the loader, one after the other. *)
Definition ensure_destination (dataset_id table_id : string) : M table :=
  ensure_dataset dataset_id;; ensure_table dataset_id table_id.

Definition is_Ok_result {A : Type} (r : result A) : bool :=
  match r with
  | Ok _ => true
  | Raise _ => false
  end.

(** *** Concrete inputs and environments *)

(** The record a row yields, or the empty dictionary when it yields none. *)
Definition record_of (row : RawRecord) : Row := default ∅ (accepted_record row).

(** Ten units at 100.00: the total is exactly 1000. *)
Definition total_1000_row : RawRecord :=
  sample_row "ORD100" "carol white" "Chair" "10" "100.00" "2026-02-23".

(** One unit at 500.00: the final amount is exactly 500. *)
Definition final_500_row : RawRecord :=
  sample_row "ORD500" "dave black" "Table" "1" "500.00" "2026-02-24".

(** A clock whose readings differ from one call to the next. *)
Definition ticking_clock (k : nat) : string :=
  match k with
  | O => "2026-03-01T09:00:00.000101"
  | S O => "2026-03-01T09:00:00.000102"
  | _ => "2026-03-01T09:00:00.000103"
  end.

(** Nothing fails. *)
Definition calm_env : Env :=
  {| utcnow_isoformat := ticking_clock;
     mssql_connect := None;
     mssql_read_sql := Ok [];
     load_job_fault := None;
     query_outcome := Ok [] |}.

(** The load job succeeds and the reporting query fails. *)
Definition failing_query_env : Env :=
  {| utcnow_isoformat := ticking_clock;
     mssql_connect := None;
     mssql_read_sql := Ok [];
     load_job_fault := None;
     query_outcome := Raise GoogleAPIError |}.

(** The MSSQL connection succeeds and the query fails. *)
Definition failing_read_env : Env :=
  {| utcnow_isoformat := ticking_clock;
     mssql_connect := None;
     mssql_read_sql := Raise DatabaseError;
     load_job_fault := None;
     query_outcome := Ok [] |}.

Definition empty_world : World :=
  {| stdout := []; open_handles := []; clock_reads := 0;
     files := ∅; warehouse := ∅ |}.

(** A project that already has the [sales_data] dataset. *)
Definition sales_world : World :=
  {| stdout := []; open_handles := []; clock_reads := 0; files := ∅;
     warehouse := {[ "sales_data" := {| dataset_location := "US";
                                        dataset_tables := ∅ |} ]} |}.

(** A machine on which [sales_data.csv] holds the sample rows. *)
Definition csv_world : World :=
  {| stdout := []; open_handles := []; clock_reads := 0;
     files := {[ "sales_data.csv" := Ok sample_rows ]}; warehouse := ∅ |}.

(** *** Definitions for the further properties *)

(** The diagnostic line a row causes, if any. *)
Definition rejection_line (row : RawRecord) : option event :=
  match try_row row with
  | Ok (Some _) => None
  | Ok None => Some (SkippingInvalidRow row)
  | Raise e => Some (ErrorProcessingRow row e)
  end.

(** A record whose price is not a number. *)
Definition nan_price_row : RawRecord :=
  sample_row "ORD300" "erin gray" "Lamp" "3" "nan" "2026-02-25".

(** The names of the columns of the destination table. *)
Definition schema_columns : gset string :=
  list_to_set (field_name <$> schema).

(** The warehouse once a dataset and a table in it have been ensured:
    what is there is kept, what is missing is created empty. *)
Definition ensured_warehouse (dataset_id table_id : string)
    (b : gmap string dataset) : gmap string dataset :=
  let d := default {| dataset_location := "US"; dataset_tables := ∅ |}
                   (b !! dataset_id) in
  let t := default {| table_schema := Some schema; table_rows := [] |}
                   (dataset_tables d !! table_id) in
  <[dataset_id := {| dataset_location := dataset_location d;
                     dataset_tables := <[table_id := t]> (dataset_tables d) |}]> b.

(** The batch as the loader stamps it with clock reading [k]. *)
Definition stamped (env : Env) (k : nat) (data : list Row) : list Row :=
  (λ row : Row, <["loaded_at" := VStr (utcnow_isoformat env k)]> row) <$> data.

(** What [load_to_bigquery] ends with: the fault of the load job, or else
    the exception of the reporting query, or else nothing. *)
Definition load_outcome (env : Env) : result unit :=
  match load_job_fault env with
  | Some e => Raise e
  | None =>
      match query_outcome env with
      | Ok _ => Ok ()
      | Raise e => Raise e
      end
  end.

(** A machine on which [sales_data.csv] holds a record whose quantity
    does not convert to a float. *)
Definition overflow_csv_world : World :=
  {| stdout := []; open_handles := []; clock_reads := 0;
     files := {[ "sales_data.csv" := Ok (huge_quantity_row :: sample_rows) ]};
     warehouse := ∅ |}.

(** The load job is refused. *)
Definition failing_load_env : Env :=
  {| utcnow_isoformat := ticking_clock;
     mssql_connect := None;
     mssql_read_sql := Ok [];
     load_job_fault := Some GoogleAPIError;
     query_outcome := Ok [] |}.

(** A record whose price is infinite. *)
Definition infinite_price_row : RawRecord :=
  sample_row "ORD301" "gina hale" "Vase" "2" "inf" "2026-02-26".

(** *** Proof steps *)

(** One step of the [try] block in the [result] monad. *)
Ltac step_try_row :=
  cbn [mbind result_bind mret result_ret orb].

(** One step of the [try] block on rows that may hold [None]. *)
Ltac step_csv :=
  cbn [Csv.strip Csv.int Csv.float mbind result_bind mret result_ret orb].

(** Unfolds the combinators of [M]. *)
Ltac unfold_M :=
  unfold try_except, for_each, print, raise, acquire, close, printing,
    mbind, M_bind, mret, M_ret; cbn beta iota.

(** * The built-ins on known values *)

Example strip_then_title : PyStr.title (PyStr.strip "  john doe ") = "John Doe".
Proof. reflexivity. Qed.

Example int_accepts_sign_and_underscore : PyInt.of_str " +1_000 " = Ok 1000.
Proof. reflexivity. Qed.

Example int_rejects_lone_sign : PyInt.of_str "- 1" = Raise ValueError.
Proof. reflexivity. Qed.

(** [float("899.99")] is [0x1.c1feb851eb852p+9]. *)
Example float_899_99 :
  PyFloat.of_str "899.99" = Ok (S754_finite false 7916395759056978 (-43)).
Proof. vm_compute. reflexivity. Qed.

Example float_rejects_bare_exponent : PyFloat.of_str "1e" = Raise ValueError.
Proof. vm_compute. reflexivity. Qed.

(** [round(0.125, 2) = 0.12]: a tie goes to the even digit. *)
Example round2_tie :
  PyFloat.round2 (PyFloat.of_decimal false 125 (-3)) = PyFloat.of_decimal false 12 (-2).
Proof. vm_compute. reflexivity. Qed.

(** [round(2.675, 2) = 2.67]: the binary value is below the tie. *)
Example round2_below_tie :
  PyFloat.round2 (PyFloat.of_decimal false 2675 (-3)) = PyFloat.of_decimal false 267 (-2).
Proof. vm_compute. reflexivity. Qed.

Example nan_is_not_le_zero :
  PyFloat.leb S754_nan (PyFloat.of_small_int 0) = false.
Proof. reflexivity. Qed.

Example strptime_short_fields :
  PyDate.isoformat <$> (match PyDate.strptime "2026-2-5" with
                        | Ok d => Some d
                        | Raise _ => None
                        end) = Some "2026-02-05".
Proof. vm_compute. reflexivity. Qed.

Example strptime_checks_the_calendar : PyDate.strptime "2026-02-29" = Raise ValueError.
Proof. vm_compute. reflexivity. Qed.

(** * The transformer *)

Lemma int_of_str_raises s e : PyInt.of_str s = Raise e → e = ValueError.
Proof.
  unfold PyInt.of_str.
  destruct (String.list_ascii_of_string _) as [|c cs]; cbn zeta.
  - destruct (PyInt.digits_with_underscores _); [case_match|]; congruence.
  - repeat case_match; congruence.
Qed.

Lemma float_of_str_raises s e : PyFloat.of_str s = Raise e → e = ValueError.
Proof. unfold PyFloat.of_str. repeat case_match; congruence. Qed.

Lemma strptime_raises s e : PyDate.strptime s = Raise e → e = ValueError.
Proof. unfold PyDate.strptime. repeat case_match; congruence. Qed.

Lemma float_of_int_raises n e : PyFloat.of_int n = Raise e → e = OverflowError.
Proof. unfold PyFloat.of_int. case_match; congruence. Qed.

Lemma positive_not_le_zero p :
  PyFloat.ltb (PyFloat.of_small_int 0) p = true →
  PyFloat.leb p (PyFloat.of_small_int 0) = false.
Proof. by destruct p as [[]|[]| |[] m e]. Qed.

(** What the loop returns: the first exception that escapes the handler,
    or else the list built so far followed by what each row contributes,
    in order. *)
Lemma transform_loop_result rows transformed out :
  (transform_loop rows transformed out).2 =
    match first_uncaught rows with
    | Some e => Raise e
    | None => Ok (transformed ++ omap accepted_record rows)
    end.
Proof.
  revert transformed out.
  induction rows as [|row rest IH]; intros transformed out.
  - cbn. by rewrite app_nil_r.
  - cbn [transform_loop first_uncaught omap list_omap].
    unfold uncaught, accepted_record.
    destruct (try_row row) as [[r|]|e].
    + rewrite IH. destruct (first_uncaught rest); [done|]. by rewrite <- app_assoc.
    + apply IH.
    + destruct (caught e); [apply IH|done].
Qed.

Lemma transform_result raw :
  (transform_sales_data raw).2 =
    match first_uncaught raw with
    | Some e => Raise e
    | None => Ok (omap accepted_record raw)
    end.
Proof. apply transform_loop_result. Qed.

(** A row that passes the validity conditions and whose quantity converts
    is enriched by the formulas of the source. *)
Lemma try_row_valid row q p d f :
  valid_record row q p d → PyFloat.of_int q = Ok f →
  ∃ r, try_row row = Ok (Some r) ∧
    r !! "order_id" = Some (VStr (PyStr.strip (get row "order_id" ""))) ∧
    r !! "customer" =
      Some (VStr (PyStr.title (PyStr.strip (get row "customer_name" "Unknown")))) ∧
    r !! "product" = Some (VStr (PyStr.strip (get row "product" ""))) ∧
    r !! "quantity" = Some (VInt q) ∧
    r !! "price" = Some (VFloat p) ∧
    r !! "total_amount" = Some (VFloat (PyFloat.round2 (PyFloat.mul f p))).
Proof.
  intros (Hid & Hq & Hpos & Hp & Hgt & Hd) Hf.
  unfold try_row. rewrite Hq, Hp. step_try_row.
  rewrite bool_decide_eq_false_2 by done.
  rewrite (proj2 (Z.leb_gt _ _)) by done.
  rewrite positive_not_le_zero by done. step_try_row.
  rewrite Hd, Hf. step_try_row.
  eexists. split; [reflexivity|]. by repeat split.
Qed.

(** The shape of every appended dictionary. *)
Lemma try_row_accepted row r :
  try_row row = Ok (Some r) →
  ∃ t, r !! "total_amount" = Some (VFloat t) ∧
    let discount :=
      if PyFloat.ltb (PyFloat.of_small_int 1000) t then f_tenth else f_zero in
    let final :=
      PyFloat.round2 (PyFloat.mul t (PyFloat.sub (PyFloat.of_small_int 1) discount)) in
    r !! "discount_rate" = Some (VFloat discount) ∧
    r !! "final_amount" = Some (VFloat final) ∧
    r !! "category" =
      Some (VStr (if PyFloat.leb (PyFloat.of_small_int 500) final
                  then "High Value" else "Standard")) ∧
    r !! "loaded_at" = None.
Proof.
  unfold try_row.
  destruct (PyInt.of_str _) as [q|]; step_try_row; [|done].
  destruct (PyFloat.of_str _) as [p|]; step_try_row; [|done].
  destruct (_ || _ || _); step_try_row; [done|].
  destruct (PyDate.strptime _) as [d|]; step_try_row; [|done].
  destruct (PyFloat.of_int q) as [f|]; step_try_row; [|done].
  intros [= <-]. eexists. split; [reflexivity|]. by repeat split.
Qed.

Lemma output_from_row raw out r :
  (transform_sales_data raw).2 = Ok out → r ∈ out →
  ∃ row, row ∈ raw ∧ try_row row = Ok (Some r).
Proof.
  rewrite transform_result. destruct (first_uncaught raw); [done|].
  intros [= <-] (row & Hin & Hacc)%list_elem_of_omap.
  exists row. split; [done|]. unfold accepted_record in Hacc.
  by destruct (try_row row) as [[?|]|]; simplify_eq.
Qed.

Lemma omap_accepted_cons_true row rest :
  accepts row = true →
  omap accepted_record (row :: rest) = record_of row :: omap accepted_record rest.
Proof.
  cbn [omap list_omap]. unfold accepts, record_of, accepted_record.
  by destruct (try_row row) as [[r|]|e].
Qed.

Lemma omap_accepted_cons_false row rest :
  accepts row = false →
  omap accepted_record (row :: rest) = omap accepted_record rest.
Proof.
  cbn [omap list_omap]. unfold accepts, accepted_record.
  by destruct (try_row row) as [[r|]|e].
Qed.

Lemma single_row_result row :
  accepts row = true → (transform_sales_data [row]).2 = Ok [record_of row].
Proof.
  intros Hrow. rewrite transform_result. cbn [first_uncaught].
  rewrite omap_accepted_cons_true by done.
  unfold uncaught, accepts in *. by destruct (try_row row) as [[r|]|e].
Qed.

(** * The loader *)

Lemma ensure_dataset_result ds w :
  ensure_dataset ds w =
    match warehouse w !! ds with
    | Some _ => (Ok (), set_stdout (stdout w ++ [DatasetExists ds]) w)
    | None =>
        (Ok (), set_stdout (stdout w ++ [DatasetCreated ds])
                  (set_warehouse
                     (<[ds := {| dataset_location := "US"; dataset_tables := ∅ |}]>
                        (warehouse w)) w))
    end.
Proof.
  unfold ensure_dataset, get_dataset, create_dataset. unfold_M.
  destruct (warehouse w !! ds) as [d|] eqn:Hd; [done|].
  cbn. by rewrite Hd.
Qed.

Lemma ensure_table_result ds tb w d :
  warehouse w !! ds = Some d →
  ensure_table ds tb w =
    match dataset_tables d !! tb with
    | Some t => (Ok t, set_stdout (stdout w ++ [TableExists tb]) w)
    | None =>
        let t := {| table_schema := Some schema; table_rows := [] |} in
        (Ok t, set_stdout (stdout w ++ [TableCreated tb])
                 (set_warehouse
                    (<[ds := {| dataset_location := dataset_location d;
                                dataset_tables := <[tb := t]> (dataset_tables d) |}]>
                       (warehouse w)) w))
    end.
Proof.
  intros Hd.
  unfold ensure_table, get_table, create_table. unfold_M. rewrite Hd.
  destruct (dataset_tables d !! tb) as [t|] eqn:Ht; [done|].
  cbn. by rewrite Hd, Ht.
Qed.

(** The two steps in sequence leave the dataset and the table in place,
    and touch nothing else. *)
Lemma ensure_destination_result ds tb w :
  ∃ t w', ensure_destination ds tb w = (Ok t, w') ∧
    rows_of (warehouse w') ds tb = rows_of (warehouse w) ds tb ∧
    (∃ d, warehouse w' !! ds = Some d ∧ dataset_tables d !! tb = Some t) ∧
    (∀ ds', ds' ≠ ds → warehouse w' !! ds' = warehouse w !! ds') ∧
    clock_reads w' = clock_reads w ∧
    open_handles w' = open_handles w ∧
    files w' = files w.
Proof.
  unfold ensure_destination. unfold mbind at 1. unfold M_bind.
  rewrite ensure_dataset_result.
  assert (∀ (x : dataset) (b : gmap string dataset) ds',
    ds' ≠ ds → <[ds := x]> b !! ds' = b !! ds') as Hne
    by (intros; by apply lookup_insert_ne).
  destruct (warehouse w !! ds) as [d|] eqn:Hd.
  - erewrite ensure_table_result by exact Hd.
    destruct (dataset_tables d !! tb) as [t|] eqn:Ht.
    + exists t; eexists; split; [done|]. cbn. repeat split; eauto.
    + eexists _, _; split; [done|]. cbn. unfold rows_of.
      rewrite Hd, Ht, lookup_insert_eq. cbn. rewrite lookup_insert_eq.
      repeat split; eauto.
      eexists; split; [done|]. cbn. apply lookup_insert_eq.
  - erewrite ensure_table_result by (cbn; apply lookup_insert_eq).
    cbn. rewrite lookup_empty. eexists _, _; split; [done|]. cbn.
    unfold rows_of. rewrite Hd, insert_insert_eq, lookup_insert_eq. cbn.
    rewrite lookup_insert_eq.
    repeat split; eauto.
    eexists; split; [done|]. cbn. apply lookup_insert_eq.
Qed.

Lemma seq_assoc {A B C : Type} (a : M A) (b : M B) (k : M C) w :
  (a;; b;; k) w = ((a;; b);; k) w.
Proof. unfold mbind, M_bind. by destruct (a w) as [[?|?] ?]. Qed.

(** Printing a report changes the console only. *)
Lemma for_each_print {A : Type} (line : A → event) (l : list A) w :
  ∃ bs w', for_each (λ r, print (line r)) l w = (Ok bs, w') ∧
    warehouse w' = warehouse w ∧ clock_reads w' = clock_reads w ∧
    open_handles w' = open_handles w ∧ files w' = files w.
Proof.
  revert w. induction l as [|a l IH]; intros w.
  - by eexists _, _.
  - cbn [for_each]. unfold mbind at 1. unfold M_bind, print at 1.
    unfold mbind at 1. unfold M_bind.
    destruct (IH (set_stdout (stdout w ++ [line a]) w))
      as (bs & w' & -> & Hw & Hc & Ho & Hf).
    by eexists _, _.
Qed.

(** The stamping block reads the clock once and stores that reading in
    every row. *)
Lemma stamp_batch_result env data w :
  stamp_batch env data w =
    (Ok ((λ row : Row,
            <["loaded_at" := VStr (utcnow_isoformat env (clock_reads w))]> row) <$> data),
     set_clock_reads (S (clock_reads w)) w).
Proof. done. Qed.

(** The stamping loop of [3a.ETL.py] reads the clock once per row. *)
Lemma add_timestamp_result env rows w :
  add_timestamp env rows w =
    (Ok (imap (λ i (row : Row),
                 <["loaded_at" := VStr (utcnow_isoformat env (clock_reads w + i))]> row)
              rows),
     set_clock_reads (clock_reads w + length rows) w).
Proof.
  unfold add_timestamp. revert w.
  induction rows as [|row rows IH]; intros w.
  - cbn. destruct w. unfold set_clock_reads. cbn. by rewrite Nat.add_0_r.
  - cbn [for_each imap length]. unfold mbind at 1. unfold M_bind.
    unfold mbind at 1. unfold M_bind, utcnow at 1. cbn beta iota.
    unfold mret at 1. unfold M_ret.
    unfold mbind at 1. unfold M_bind. rewrite IH. unfold mret, M_ret.
    cbn. rewrite Nat.add_0_r. f_equal.
    + f_equal. f_equal. apply imap_ext. intros i x _. cbn.
      by rewrite Nat.add_succ_r.
    + unfold set_clock_reads. cbn. by rewrite Nat.add_succ_r.
Qed.

Lemma load_to_bigquery_result env data project_id dataset_id table_id w :
  load_job_fault env = None →
  ∃ w', load_to_bigquery env data project_id dataset_id table_id w =
          (match query_outcome env with
           | Ok _ => Ok ()
           | Raise e => Raise e
           end, w') ∧
    rows_of (warehouse w') dataset_id table_id =
      rows_of (warehouse w) dataset_id table_id ++
        ((λ row : Row,
            <["loaded_at" := VStr (utcnow_isoformat env (clock_reads w))]> row) <$> data) ∧
    clock_reads w' = S (clock_reads w) ∧
    open_handles w' = open_handles w.
Proof.
  intros Hjob. unfold load_to_bigquery.
  unfold mbind at 1. unfold M_bind, print at 1.
  rewrite seq_assoc. fold (ensure_destination dataset_id table_id).
  unfold mbind at 1. unfold M_bind.
  destruct (ensure_destination_result dataset_id table_id
              (set_stdout (stdout w ++ [LoadWriting project_id dataset_id table_id]) w))
    as (t & w1 & -> & Hrows & (d & Hd & Ht) & _ & Hclock & Hopen & _).
  cbn in Hrows, Hclock, Hopen.
  unfold mbind at 1. unfold M_bind. rewrite stamp_batch_result.
  unfold mbind at 1. unfold M_bind, load_job at 1. rewrite Hjob.
  cbn [warehouse set_clock_reads]. rewrite Hd.
  unfold mbind at 1. unfold M_bind, print at 1.
  unfold mbind at 1. unfold M_bind, print at 1.
  unfold mbind at 1. unfold M_bind, run_query at 1.
  destruct (query_outcome env) as [report|e].
  - unfold mbind at 1. unfold M_bind.
    match goal with
    | |- context [for_each ?f report ?w0] =>
        destruct (for_each_print (λ r : string * spec_float * Z,
                                    ReportLine r.1.1 r.1.2 r.2) report w0)
          as (bs & w2 & -> & Hw2 & Hc2 & Ho2 & _)
    end.
    eexists. split; [reflexivity|]. rewrite Hw2, Hc2, Ho2. cbn.
    rewrite Hclock, Hopen. repeat split.
    unfold rows_of at 1. rewrite lookup_insert_eq. cbn. rewrite lookup_insert_eq.
    cbn. rewrite Ht. cbn. rewrite <- Hrows. unfold rows_of. by rewrite Hd, Ht.
  - eexists. split; [reflexivity|]. cbn.
    rewrite Hclock, Hopen. repeat split.
    unfold rows_of at 1. rewrite lookup_insert_eq. cbn. rewrite lookup_insert_eq.
    cbn. rewrite Ht. cbn. rewrite <- Hrows. unfold rows_of. by rewrite Hd, Ht.
Qed.

(** * The extractors *)

(** What [extract_sales_data] returns, and the handles it leaves open. *)
Lemma extract_sales_data_result csv_path w :
  ∃ w', extract_sales_data csv_path w =
          (default (Raise OSError) (files w !! csv_path), w') ∧
    open_handles w' =
      (if bool_decide (files w !! csv_path = None) then open_handles w
       else filter (λ h, h ≠ FileHandle csv_path) (open_handles w)) ∧
    warehouse w' = warehouse w ∧ clock_reads w' = clock_reads w ∧
    files w' = files w.
Proof.
  unfold extract_sales_data, with_open. unfold_M. cbn [files set_stdout].
  assert (∀ l, filter (λ h, h ≠ FileHandle csv_path) (FileHandle csv_path :: l)
               = filter (λ h, h ≠ FileHandle csv_path) l) as Hfilter.
  { intros l. apply filter_cons_False. by intros H. }
  unfold release. cbn [files open_handles set_stdout set_open_handles].
  destruct (files w !! csv_path) as [[rows|e]|] eqn:Hfile.
  - rewrite bool_decide_eq_false_2, Hfilter by done. by eexists.
  - rewrite bool_decide_eq_false_2, Hfilter by done. by eexists.
  - rewrite bool_decide_eq_true_2 by done. by eexists.
Qed.

Lemma filter_removes (h : handle) (l : list handle) :
  h ∉ filter (λ h', h' ≠ h) l.
Proof. intros [Hne _]%list_elem_of_filter. by apply Hne. Qed.

Lemma filter_keeps (h h0 : handle) (l : list handle) :
  h0 ∈ filter (λ h', h' ≠ h) l → h0 ∈ l.
Proof. by intros [_ ?]%list_elem_of_filter. Qed.

(** The MSSQL script when the connection succeeds and the query raises:
    the exception leaves the script before [conn.close()]. *)
Lemma el_orders_script_read_fails env e w :
  mssql_connect env = None → mssql_read_sql env = Raise e →
  el_orders_script env w =
    (Raise e, set_open_handles (Connection connection_string :: open_handles w) w).
Proof.
  intros Hc Hr. unfold el_orders_script, connect, read_sql. rewrite Hc.
  unfold_M. by rewrite Hr.
Qed.

(** The MSSQL script when the connection and the query succeed: the
    connection is closed before the load. *)
Lemma el_orders_script_read_ok env df w :
  mssql_connect env = None → mssql_read_sql env = Ok df →
  ∃ r w', el_orders_script env w = (r, w') ∧
    open_handles w' =
      filter (λ h, h ≠ Connection connection_string) (open_handles w).
Proof.
  intros Hc Hr. unfold el_orders_script, connect, read_sql, load_job. rewrite Hc.
  unfold_M. rewrite Hr. unfold release. cbn [open_handles set_open_handles set_stdout].
  rewrite filter_cons_False by (intros H; by apply H).
  destruct (load_job_fault env); [by eexists _, _|].
  cbn [warehouse set_stdout set_open_handles].
  destruct (warehouse w !! "analytics"); by eexists _, _.
Qed.

(** * The whole pipeline *)

Lemma run_etl_pipeline_result env csv_path project_id dataset_id table_id
    raw out w :
  files w !! csv_path = Some (Ok raw) →
  (transform_sales_data raw).2 = Ok out →
  load_job_fault env = None →
  ∃ r w', run_etl_pipeline env csv_path project_id dataset_id table_id w = (r, w') ∧
    (∀ e, query_outcome env = Raise e → r = Raise e) ∧
    (is_Ok_result (query_outcome env) = true → r = Ok ()) ∧
    rows_of (warehouse w') dataset_id table_id =
      rows_of (warehouse w) dataset_id table_id ++
        ((λ row : Row,
            <["loaded_at" := VStr (utcnow_isoformat env (clock_reads w))]> row) <$> out).
Proof.
  intros Hfile Hout Hjob. unfold run_etl_pipeline.
  do 3 (unfold mbind at 1; unfold M_bind, print at 1).
  unfold mbind at 1. unfold M_bind.
  match goal with
  | |- context [extract_sales_data csv_path ?w0] =>
      destruct (extract_sales_data_result csv_path w0)
        as (w1 & -> & _ & Hw1 & Hc1 & _)
  end.
  cbn [files set_stdout]. rewrite Hfile. cbn [from_option id].
  unfold mbind at 1. unfold M_bind, printing at 1. cbn beta. rewrite Hout.
  unfold mbind at 1. unfold M_bind.
  match goal with
  | |- context [load_to_bigquery env out project_id dataset_id table_id ?w0] =>
      destruct (load_to_bigquery_result env out project_id dataset_id table_id w0 Hjob)
        as (w2 & -> & Hrows & _)
  end.
  cbn in Hrows, Hw1, Hc1. rewrite Hw1, Hc1 in Hrows.
  destruct (query_outcome env) as [report|e].
  - unfold_M. eexists _, _. split; [reflexivity|]. cbn. by repeat split.
  - eexists _, _. split; [reflexivity|]. cbn. repeat split; [congruence|done|done].
Qed.

(** * The transformer on rows with [None] values and any string built-ins *)

Lemma csv_get_none row key fallback :
  Csv.get row key fallback = Csv.NoneCell → row !! key = Some Csv.NoneCell.
Proof. unfold Csv.get. by destruct (row !! key) as [[s|]|]. Qed.

Lemma csv_get_of_text row key fallback :
  Csv.get (Csv.of_text row) key fallback = Csv.Str (get row key fallback).
Proof.
  unfold Csv.get, Csv.of_text, get. rewrite lookup_fmap.
  by destruct (row !! key).
Qed.

(** On a row whose values are all strings, with the built-ins on ASCII
    text, the row handler is [try_row]. *)
Lemma try_row_of_text row :
  Csv.try_row Csv.text_builtins (Csv.of_text row) = try_row row.
Proof. unfold Csv.try_row, try_row. by rewrite !csv_get_of_text. Qed.

Lemma transform_loop_of_text rows transformed out out' :
  (Csv.transform_loop Csv.text_builtins (Csv.of_text <$> rows) transformed out).2 =
  (transform_loop rows transformed out').2.
Proof.
  revert transformed out out'.
  induction rows as [|row rest IH]; intros transformed out out'; [done|].
  cbn [fmap list_fmap Csv.transform_loop transform_loop].
  rewrite try_row_of_text.
  destruct (try_row row) as [[r|]|e]; [apply IH..|].
  destruct (caught e); [apply IH|done].
Qed.

(** On such rows the whole transform is [transform_sales_data]. *)
Lemma transform_of_text raw :
  (Csv.transform_sales_data Csv.text_builtins (Csv.of_text <$> raw)).2 =
  (transform_sales_data raw).2.
Proof. apply transform_loop_of_text. Qed.

(** What the loop returns. *)
Lemma csv_transform_loop_result B rows transformed out :
  (Csv.transform_loop B rows transformed out).2 =
    match Csv.first_uncaught B rows with
    | Some e => Raise e
    | None => Ok (transformed ++ omap (Csv.accepted_record B) rows)
    end.
Proof.
  revert transformed out.
  induction rows as [|row rest IH]; intros transformed out.
  - cbn. by rewrite app_nil_r.
  - cbn [Csv.transform_loop Csv.first_uncaught omap list_omap].
    unfold Csv.accepted_record.
    destruct (Csv.try_row B row) as [[r|]|e].
    + rewrite IH. destruct (Csv.first_uncaught B rest); [done|].
      by rewrite <- app_assoc.
    + apply IH.
    + destruct (caught e); [apply IH|done].
Qed.

Lemma csv_transform_result B raw :
  (Csv.transform_sales_data B raw).2 =
    match Csv.first_uncaught B raw with
    | Some e => Raise e
    | None => Ok (omap (Csv.accepted_record B) raw)
    end.
Proof. apply csv_transform_loop_result. Qed.

Lemma csv_first_uncaught_handled B rows :
  Csv.first_uncaught B rows = None ↔ forallb (Csv.handled B) rows = true.
Proof.
  induction rows as [|row rest IH]; [done|].
  cbn [Csv.first_uncaught forallb]. unfold Csv.handled at 1.
  destruct (Csv.try_row B row) as [r|e]; cbn [andb]; [done|].
  destruct (caught e); cbn [andb]; [done|]. split; [done|discriminate].
Qed.

(** The transform returns exactly on the batches whose rows are all
    handled. *)
Lemma csv_transform_returns_iff B raw :
  (∃ out, (Csv.transform_sales_data B raw).2 = Ok out) ↔
  forallb (Csv.handled B) raw = true.
Proof.
  rewrite csv_transform_result, <- csv_first_uncaught_handled.
  destruct (Csv.first_uncaught B raw); split; try done.
  - by intros [out ?].
  - by eexists.
Qed.

(** A record that meets the validity conditions, with string customer
    name and product and a quantity that converts, is enriched. *)
Lemma csv_try_row_enriches B row q p d f name product :
  Csv.valid_record B row q p d → PyFloat.of_int q = Ok f →
  Csv.get row "customer_name" "Unknown" = Csv.Str name →
  Csv.get row "product" "" = Csv.Str product →
  ∃ r, Csv.try_row B row = Ok (Some r) ∧
    r !! "customer" = Some (VStr (Csv.str_title B (Csv.str_strip B name))) ∧
    r !! "product" = Some (VStr (Csv.str_strip B product)) ∧
    r !! "quantity" = Some (VInt q) ∧
    r !! "price" = Some (VFloat p) ∧
    r !! "total_amount" = Some (VFloat (PyFloat.round2 (PyFloat.mul f p))).
Proof.
  intros (oid & qs & ps & ds & Hoid & Hid & Hqs & Hq & Hpos & Hps & Hp & Hgt & Hds & Hd)
    Hf Hname Hproduct.
  unfold Csv.try_row. rewrite Hoid, Hname, Hproduct, Hqs, Hps, Hds. step_csv.
  rewrite Hq, Hp. step_csv.
  rewrite bool_decide_eq_false_2 by done.
  rewrite (proj2 (Z.leb_gt _ _)) by done.
  rewrite positive_not_le_zero by done. step_csv.
  rewrite Hd, Hf. step_csv.
  eexists. split; [reflexivity|]. by repeat split.
Qed.

(** A handled record that meets the validity conditions has a string
    customer name, a string product and a quantity that converts. *)
Lemma csv_valid_handled B row q p d :
  Csv.valid_record B row q p d → Csv.handled B row = true →
  ∃ f name product,
    PyFloat.of_int q = Ok f ∧
    Csv.get row "customer_name" "Unknown" = Csv.Str name ∧
    Csv.get row "product" "" = Csv.Str product.
Proof.
  intros (oid & qs & ps & ds & Hoid & Hid & Hqs & Hq & Hpos & Hps & Hp & Hgt & Hds & Hd).
  unfold Csv.handled, Csv.try_row. rewrite Hoid, Hqs, Hps, Hds. step_csv.
  destruct (Csv.get row "customer_name" "Unknown") as [name|]; step_csv; [|done].
  destruct (Csv.get row "product" "") as [product|]; step_csv; [|done].
  rewrite Hq, Hp. step_csv.
  rewrite bool_decide_eq_false_2 by done.
  rewrite (proj2 (Z.leb_gt _ _)) by done.
  rewrite positive_not_le_zero by done. step_csv.
  rewrite Hd. step_csv.
  destruct (PyFloat.of_int q) as [f|e] eqn:Hf; step_csv.
  - intros _. by exists f, name, product.
  - by apply float_of_int_raises in Hf as ->.
Qed.

Lemma csv_value_errors_only_text : Csv.value_errors_only Csv.text_builtins.
Proof.
  split; [|split]; cbn.
  - exact int_of_str_raises.
  - exact float_of_str_raises.
  - exact strptime_raises.
Qed.

Lemma csv_fallbacks_rejected_text : Csv.fallbacks_rejected Csv.text_builtins.
Proof. repeat split; vm_compute; reflexivity. Qed.

Lemma csv_valid_passes_checks B row q p d :
  Csv.valid_record B row q p d → Csv.passes_checks B row q p d.
Proof.
  intros (oid & qs & ps & ds & Hoid & Hid & Hqs & Hq & Hpos & Hps & Hp & Hgt & Hds & Hd).
  exists oid, qs, ps, ds. repeat split; try done. by apply positive_not_le_zero.
Qed.

(** An exception of the row handler that the [except] clause does not
    catch: a [None] reached [.strip()], [int()] or [float()], or the
    quantity of a row that passed every check does not convert. *)
Lemma csv_try_row_raises B row e :
  Csv.value_errors_only B →
  Csv.try_row B row = Raise e → caught e = false →
  (e = AttributeError ∧
     ∃ k, k ∈ Csv.stripped_columns ∧ row !! k = Some Csv.NoneCell) ∨
  (e = TypeError ∧
     ∃ k, k ∈ Csv.number_columns ∧ row !! k = Some Csv.NoneCell) ∨
  (e = OverflowError ∧
     ∃ q p d, Csv.passes_checks B row q p d ∧
       PyFloat.of_int q = Raise OverflowError).
Proof.
  intros (Hint & Hfloat & Hdate). unfold Csv.try_row.
  destruct (Csv.get row "order_id" "") as [oid|] eqn:Hoid; step_csv;
    [|intros [= <-] _; left; split; [done|]; exists "order_id";
      split; [unfold Csv.stripped_columns; set_solver|by eapply csv_get_none]].
  destruct (Csv.get row "customer_name" "Unknown") as [name|] eqn:Hname; step_csv;
    [|intros [= <-] _; left; split; [done|]; exists "customer_name";
      split; [unfold Csv.stripped_columns; set_solver|by eapply csv_get_none]].
  destruct (Csv.get row "product" "") as [product|] eqn:Hproduct; step_csv;
    [|intros [= <-] _; left; split; [done|]; exists "product";
      split; [unfold Csv.stripped_columns; set_solver|by eapply csv_get_none]].
  destruct (Csv.get row "quantity" "0") as [qs|] eqn:Hqs; step_csv;
    [|intros [= <-] _; right; left; split; [done|]; exists "quantity";
      split; [unfold Csv.number_columns; set_solver|by eapply csv_get_none]].
  destruct (Csv.int_of_str B qs) as [q|e1] eqn:Hq; step_csv;
    [|intros [= <-] Hc; by rewrite (Hint _ _ Hq) in Hc].
  destruct (Csv.get row "price" "0") as [ps|] eqn:Hps; step_csv;
    [|intros [= <-] _; right; left; split; [done|]; exists "price";
      split; [unfold Csv.number_columns; set_solver|by eapply csv_get_none]].
  destruct (Csv.float_of_str B ps) as [p|e1] eqn:Hp; step_csv;
    [|intros [= <-] Hc; by rewrite (Hfloat _ _ Hp) in Hc].
  destruct (Csv.get row "order_date" "") as [ds|] eqn:Hds; step_csv;
    [|intros [= <-] _; left; split; [done|]; exists "order_date";
      split; [unfold Csv.stripped_columns; set_solver|by eapply csv_get_none]].
  destruct (bool_decide (Csv.str_strip B oid = "")) eqn:Hid; cbn [orb]; [done|].
  destruct (q <=? 0) eqn:Hpos; cbn [orb]; [done|].
  destruct (PyFloat.leb p (PyFloat.of_small_int 0)) eqn:Hle; [done|].
  destruct (Csv.strptime B (Csv.str_strip B ds)) as [d|e1] eqn:Hd; step_csv;
    [|intros [= <-] Hc; by rewrite (Hdate _ _ Hd) in Hc].
  destruct (PyFloat.of_int q) as [f|e1] eqn:Hf; step_csv; [done|].
  intros [= <-] _. apply float_of_int_raises in Hf as Heq. subst e1.
  right; right. split; [done|]. exists q, p, d. split; [|done].
  exists oid, qs, ps, ds. apply bool_decide_eq_false in Hid. apply Z.leb_gt in Hpos.
  by repeat split.
Qed.


(** A row with no [None] in the columns the handler reads has a string
    in each of them. *)
Lemma csv_get_str row key fallback :
  row !! key ≠ Some Csv.NoneCell → ∃ s, Csv.get row key fallback = Csv.Str s.
Proof.
  intros Hkey. unfold Csv.get. destruct (row !! key) as [[s|]|]; [by exists s|done|].
  by exists fallback.
Qed.

Lemma csv_get_missing row key fallback :
  row !! key = None → Csv.get row key fallback = Csv.Str fallback.
Proof. intros Hkey. unfold Csv.get. by rewrite Hkey. Qed.

(** What the handler does with a record that meets the validity
    conditions: it is never skipped, and what it raises is not caught. *)
Lemma csv_try_row_valid_cases B row q p d :
  Csv.valid_record B row q p d →
  Csv.try_row B row ≠ Ok None ∧
  (∀ e, Csv.try_row B row = Raise e → caught e = false).
Proof.
  intros (oid & qs & ps & ds & Hoid & Hid & Hqs & Hq & Hpos & Hps & Hp & Hgt & Hds & Hd).
  unfold Csv.try_row. rewrite Hoid, Hqs, Hps, Hds. step_csv.
  destruct (Csv.get row "customer_name" "Unknown") as [name|]; step_csv;
    [|split; [done|by intros e [= <-]]].
  destruct (Csv.get row "product" "") as [product|]; step_csv;
    [|split; [done|by intros e [= <-]]].
  rewrite Hq, Hp. step_csv.
  rewrite bool_decide_eq_false_2 by done.
  rewrite (proj2 (Z.leb_gt _ _)) by done.
  rewrite positive_not_le_zero by done. step_csv.
  rewrite Hd. step_csv.
  destruct (PyFloat.of_int q) as [f|e'] eqn:Hf; step_csv; [done|].
  split; [done|]. intros e [= <-]. by apply float_of_int_raises in Hf as ->.
Qed.

Lemma csv_single_row_result B row r :
  Csv.try_row B row = Ok (Some r) → (Csv.transform_sales_data B [row]).2 = Ok [r].
Proof.
  intros Hr. rewrite csv_transform_result. cbn [Csv.first_uncaught omap list_omap].
  unfold Csv.accepted_record. by rewrite Hr.
Qed.

(** A sufficient condition for a row to be handled: no [None] in the
    columns read, and a quantity that converts whenever the row passes
    the checks. *)
Lemma csv_handled_when B row :
  Csv.value_errors_only B →
  (∀ k, k ∈ Csv.columns → row !! k ≠ Some Csv.NoneCell) →
  (∀ q p d, Csv.passes_checks B row q p d → ∃ f, PyFloat.of_int q = Ok f) →
  Csv.handled B row = true.
Proof.
  intros HB Hcells Hconv. unfold Csv.handled.
  destruct (Csv.try_row B row) as [r|e] eqn:Hrow; [done|].
  destruct (caught e) eqn:Hc; [done|].
  destruct (csv_try_row_raises B row e HB Hrow Hc)
    as [(_ & k & Hk & Hnone)|[(_ & k & Hk & Hnone)|(_ & q & p & d & Hchecks & Hf)]].
  - destruct (Hcells k); [|done].
    apply list_elem_of_In in Hk. apply list_elem_of_In.
    cbn [Csv.stripped_columns Csv.columns In] in *. tauto.
  - destruct (Hcells k); [|done].
    apply list_elem_of_In in Hk. apply list_elem_of_In.
    cbn [Csv.number_columns Csv.columns In] in *. tauto.
  - destruct (Hconv q p d Hchecks) as [f Hf']. congruence.
Qed.

(** * The claims of the specification *)

(** The quantity of [huge_quantity_row] is read as [10^309]. *)
Lemma huge_quantity_value :
  PyInt.of_str (get huge_quantity_row "quantity" "0") = Ok (10 ^ 309).
Proof. vm_compute. reflexivity. Qed.

(** C1, as stated, fails: a record that satisfies every listed condition
    (non-empty order id, quantity [10^309 > 0], price [1.0 > 0], a date in
    the format) is not in the output, because the batch ends with the
    [OverflowError] of [quantity * price]. *)
Lemma huge_quantity_record_lost :
  (∃ q p d, valid_record huge_quantity_row q p d) ∧
  (transform_sales_data [huge_quantity_row]).2 = Raise OverflowError.
Proof.
  split; [|vm_compute; reflexivity].
  eexists _, _, _. unfold valid_record.
  split; [vm_compute; discriminate|].
  split; [vm_compute; reflexivity|].
  split; [vm_compute; reflexivity|].
  split; [vm_compute; reflexivity|].
  split; vm_compute; reflexivity.
Qed.

(** C1 (amended): for every input sequence that no record ends early (no
    row raises an exception other than those of the [except] clause) the
    transform returns a list, that list is what the rows contribute one
    after the other in input order, and a record with a non-empty order
    id, a quantity [> 0], a price [> 0] and a date in the format
    contributes exactly one dictionary, placed between the output of the
    rows before it and the output of the rows after it, whose
    [total_amount] is [round(quantity * price, 2)].  The rows may hold
    [None], and the string built-ins are arbitrary. *)
Theorem valid_records_appear_once_in_order (B : Csv.Builtins)
    (raw : list Csv.RawRecord) :
  forallb (Csv.handled B) raw = true →
  ∃ out, (Csv.transform_sales_data B raw).2 = Ok out ∧
    out = omap (Csv.accepted_record B) raw ∧
    ∀ before row after q p d,
      raw = before ++ row :: after → Csv.valid_record B row q p d →
      ∃ f r, PyFloat.of_int q = Ok f ∧
        r !! "total_amount" = Some (VFloat (PyFloat.round2 (PyFloat.mul f p))) ∧
        out = omap (Csv.accepted_record B) before ++ r ::
              omap (Csv.accepted_record B) after.
Proof.
  intros Hhandled. eexists. rewrite csv_transform_result.
  rewrite (proj2 (csv_first_uncaught_handled B raw)) by done.
  split; [reflexivity|]. split; [reflexivity|].
  intros before row after q p d -> Hvalid.
  rewrite forallb_app in Hhandled. cbn [forallb] in Hhandled.
  apply andb_prop in Hhandled as [_ [Hrow _]%andb_prop].
  destruct (csv_valid_handled B row q p d Hvalid Hrow)
    as (f & name & product & Hf & Hname & Hproduct).
  destruct (csv_try_row_enriches B row q p d f name product Hvalid Hf Hname Hproduct)
    as (r & Hr & _ & _ & _ & _ & Htotal).
  exists f, r. split; [done|]. split; [done|].
  rewrite omap_app. cbn [omap list_omap]. unfold Csv.accepted_record at 2.
  by rewrite Hr.
Qed.

Lemma valid_records_appear_once_in_order_witness :
  forallb (Csv.handled Csv.text_builtins) Csv.handled_batch = true ∧
  ∃ out, (Csv.transform_sales_data Csv.text_builtins Csv.handled_batch).2 = Ok out ∧
    out = omap (Csv.accepted_record Csv.text_builtins) Csv.handled_batch ∧
    ∀ before row after q p d,
      Csv.handled_batch = before ++ row :: after →
      Csv.valid_record Csv.text_builtins row q p d →
      ∃ f r, PyFloat.of_int q = Ok f ∧
        r !! "total_amount" = Some (VFloat (PyFloat.round2 (PyFloat.mul f p))) ∧
        out = omap (Csv.accepted_record Csv.text_builtins) before ++ r ::
              omap (Csv.accepted_record Csv.text_builtins) after.
Proof.
  split; [vm_compute; reflexivity|].
  apply (valid_records_appear_once_in_order Csv.text_builtins Csv.handled_batch).
  vm_compute. reflexivity.
Defined.

(** C2: in every dictionary of the output, [discount_rate] is [0.1] exactly
    when [total_amount > 1000] and [0.0] otherwise; a total equal to 1000
    gets [0.0]. *)
Theorem discount_rate_threshold (raw : list RawRecord) (out : list Row) (r : Row) :
  (transform_sales_data raw).2 = Ok out → r ∈ out →
  ∃ t d, r !! "total_amount" = Some (VFloat t) ∧
    r !! "discount_rate" = Some (VFloat d) ∧
    (d = f_tenth ↔ PyFloat.ltb (PyFloat.of_small_int 1000) t = true) ∧
    (d = f_zero ↔ PyFloat.ltb (PyFloat.of_small_int 1000) t = false) ∧
    (t = PyFloat.of_small_int 1000 → d = f_zero).
Proof.
  intros Hout Hr.
  destruct (output_from_row raw out r Hout Hr) as (row & _ & Hrow).
  destruct (try_row_accepted row r Hrow) as (t & Ht & Hd & _).
  assert (f_tenth ≠ f_zero) as Hne by (vm_compute; discriminate).
  exists t. eexists. split; [exact Ht|]. split; [exact Hd|].
  destruct (PyFloat.ltb (PyFloat.of_small_int 1000) t) eqn:Hlt.
  - split; [done|]. split; [split; [intros Heq; by apply Hne in Heq|done]|].
    intros ->. vm_compute in Hlt. discriminate.
  - split; [split; [intros Heq; symmetry in Heq; by apply Hne in Heq|done]|].
    by split.
Qed.

Lemma discount_rate_threshold_witness :
  (transform_sales_data [total_1000_row]).2 = Ok [record_of total_1000_row] ∧
  record_of total_1000_row ∈ [record_of total_1000_row] ∧
  ∃ t d, record_of total_1000_row !! "total_amount" = Some (VFloat t) ∧
    record_of total_1000_row !! "discount_rate" = Some (VFloat d) ∧
    (d = f_tenth ↔ PyFloat.ltb (PyFloat.of_small_int 1000) t = true) ∧
    (d = f_zero ↔ PyFloat.ltb (PyFloat.of_small_int 1000) t = false) ∧
    (t = PyFloat.of_small_int 1000 → d = f_zero).
Proof.
  assert ((transform_sales_data [total_1000_row]).2 = Ok [record_of total_1000_row])
    as Hout by (apply single_row_result; vm_compute; reflexivity).
  assert (record_of total_1000_row ∈ [record_of total_1000_row]) as Hin by left.
  exact (conj Hout (conj Hin (discount_rate_threshold _ _ _ Hout Hin))).
Defined.

(** C3: in every dictionary of the output, [final_amount] is
    [round(total_amount * (1 - discount_rate), 2)] and [category] is
    ["High Value"] exactly when [final_amount >= 500], ["Standard"]
    otherwise; a final amount equal to 500 gets ["High Value"]. *)
Theorem category_threshold (raw : list RawRecord) (out : list Row) (r : Row) :
  (transform_sales_data raw).2 = Ok out → r ∈ out →
  ∃ t d f c, r !! "total_amount" = Some (VFloat t) ∧
    r !! "discount_rate" = Some (VFloat d) ∧
    r !! "final_amount" = Some (VFloat f) ∧
    r !! "category" = Some (VStr c) ∧
    f = PyFloat.round2 (PyFloat.mul t (PyFloat.sub (PyFloat.of_small_int 1) d)) ∧
    (c = "High Value" ↔ PyFloat.leb (PyFloat.of_small_int 500) f = true) ∧
    (c = "Standard" ↔ PyFloat.leb (PyFloat.of_small_int 500) f = false) ∧
    (f = PyFloat.of_small_int 500 → c = "High Value").
Proof.
  intros Hout Hr.
  destruct (output_from_row raw out r Hout Hr) as (row & _ & Hrow).
  destruct (try_row_accepted row r Hrow) as (t & Ht & Hd & Hf & Hc & _).
  exists t. eexists _, _, _.
  split; [exact Ht|]. split; [exact Hd|]. split; [exact Hf|]. split; [exact Hc|].
  split; [reflexivity|].
  match goal with |- context [PyFloat.leb _ ?f] => generalize f end.
  intros f. destruct (PyFloat.leb (PyFloat.of_small_int 500) f) eqn:Hle.
  - by repeat split.
  - repeat split; try done. intros ->. vm_compute in Hle. discriminate.
Qed.

Lemma category_threshold_witness :
  (transform_sales_data [final_500_row]).2 = Ok [record_of final_500_row] ∧
  record_of final_500_row ∈ [record_of final_500_row] ∧
  ∃ t d f c, record_of final_500_row !! "total_amount" = Some (VFloat t) ∧
    record_of final_500_row !! "discount_rate" = Some (VFloat d) ∧
    record_of final_500_row !! "final_amount" = Some (VFloat f) ∧
    record_of final_500_row !! "category" = Some (VStr c) ∧
    f = PyFloat.round2 (PyFloat.mul t (PyFloat.sub (PyFloat.of_small_int 1) d)) ∧
    (c = "High Value" ↔ PyFloat.leb (PyFloat.of_small_int 500) f = true) ∧
    (c = "Standard" ↔ PyFloat.leb (PyFloat.of_small_int 500) f = false) ∧
    (f = PyFloat.of_small_int 500 → c = "High Value").
Proof.
  assert ((transform_sales_data [final_500_row]).2 = Ok [record_of final_500_row])
    as Hout by (apply single_row_result; vm_compute; reflexivity).
  assert (record_of final_500_row ∈ [record_of final_500_row]) as Hin by left.
  exact (conj Hout (conj Hin (category_threshold _ _ _ Hout Hin))).
Defined.

(** C4, at the failing input: with a well-formed record of quantity
    [10^309] in front of the sample rows the function raises
    [OverflowError] and returns no list, although without that record the
    same rows yield five dictionaries. *)
Theorem huge_quantity_aborts_batch :
  (transform_sales_data (huge_quantity_row :: sample_rows)).2 = Raise OverflowError ∧
  (transform_sales_data sample_rows).2 = Ok (omap accepted_record sample_rows) ∧
  length (omap accepted_record sample_rows) = 5%nat.
Proof.
  split; [vm_compute; reflexivity|]. split; [|vm_compute; reflexivity].
  rewrite transform_result.
  by assert (first_uncaught sample_rows = None) as -> by (vm_compute; reflexivity).
Qed.

(** C6: the six sample rows yield exactly five dictionaries; the one of
    ORD001 has total 1799.98, discount rate 0.1, final amount 1619.98 and
    category "High Value"; the one of ORD002 has total 127.50, discount
    rate 0.0, final amount 127.50 and category "Standard". *)
Theorem sample_rows_transformed :
  ∃ r1 r2 r3 r4 r5,
    (transform_sales_data sample_rows).2 = Ok [r1; r2; r3; r4; r5] ∧
    r1 !! "order_id" = Some (VStr "ORD001") ∧
    r1 !! "total_amount" = Some (VFloat (PyFloat.of_decimal false 179998 (-2))) ∧
    r1 !! "discount_rate" = Some (VFloat (PyFloat.of_decimal false 10 (-2))) ∧
    r1 !! "final_amount" = Some (VFloat (PyFloat.of_decimal false 161998 (-2))) ∧
    r1 !! "category" = Some (VStr "High Value") ∧
    r2 !! "order_id" = Some (VStr "ORD002") ∧
    r2 !! "total_amount" = Some (VFloat (PyFloat.of_decimal false 12750 (-2))) ∧
    r2 !! "discount_rate" = Some (VFloat (S754_zero false)) ∧
    r2 !! "final_amount" = Some (VFloat (PyFloat.of_decimal false 12750 (-2))) ∧
    r2 !! "category" = Some (VStr "Standard").
Proof.
  eexists _, _, _, _, _. split.
  - rewrite transform_result.
    assert (first_uncaught sample_rows = None) as -> by (vm_compute; reflexivity).
    unfold sample_rows.
    repeat first
      [ rewrite omap_accepted_cons_true by (vm_compute; reflexivity)
      | rewrite omap_accepted_cons_false by (vm_compute; reflexivity) ].
    reflexivity.
  - repeat split; vm_compute; reflexivity.
Qed.

(** C5, as stated, fails on [3a.ETL.py]: with a clock whose readings
    differ, the three rows it loads carry three different [loaded_at]
    values, each assigned in the transform loop. *)
Lemma per_row_clock_readings_differ :
  (etl_to_bigquery calm_env sales_world).1 = Ok () ∧
  (λ r : Row, r !! "loaded_at") <$>
    rows_of (warehouse (etl_to_bigquery calm_env sales_world).2) "sales_data" "sales" =
  [ Some (VStr "2026-03-01T09:00:00.000101");
    Some (VStr "2026-03-01T09:00:00.000102");
    Some (VStr "2026-03-01T09:00:00.000103") ].
Proof. split; vm_compute; reflexivity. Qed.

(** C5 (amended): in [3b.ETL.py] the loader reads the clock exactly once
    and every record of the batch it appends carries that one reading as
    [loaded_at], while the records returned by the transform carry no
    [loaded_at]; in [3a.ETL.py] the transform loop reads the clock once
    per record, and record [i] carries reading number [i] counted from the
    start of the loop. *)
Theorem loaded_at_stamps (env : Env) (data : list Row) (raw : list RawRecord)
    (project_id dataset_id table_id : string) (w : World) :
  (load_job_fault env = None →
   ∃ r w' batch,
     load_to_bigquery env data project_id dataset_id table_id w = (r, w') ∧
     clock_reads w' = S (clock_reads w) ∧
     rows_of (warehouse w') dataset_id table_id =
       rows_of (warehouse w) dataset_id table_id ++ batch ∧
     length batch = length data ∧
     ∀ row, row ∈ batch →
       row !! "loaded_at" = Some (VStr (utcnow_isoformat env (clock_reads w)))) ∧
  (∀ out r, (transform_sales_data raw).2 = Ok out → r ∈ out →
     r !! "loaded_at" = None) ∧
  (∃ rows w',
     add_timestamp env data w = (Ok rows, w') ∧
     clock_reads w' = (clock_reads w + length data)%nat ∧
     length rows = length data ∧
     ∀ i row, rows !! i = Some row →
       row !! "loaded_at" = Some (VStr (utcnow_isoformat env (clock_reads w + i)))).
Proof.
  split; [|split].
  - intros Hjob.
    destruct (load_to_bigquery_result env data project_id dataset_id table_id w Hjob)
      as (w' & Hrun & Hrows & Hclock & _).
    eexists _, w', _. split; [exact Hrun|]. split; [exact Hclock|].
    split; [exact Hrows|]. split; [apply length_fmap|].
    intros row (row0 & -> & _)%list_elem_of_fmap. apply lookup_insert_eq.
  - intros out r Hout Hr.
    destruct (output_from_row raw out r Hout Hr) as (row & _ & Hrow).
    by destruct (try_row_accepted row r Hrow) as (t & _ & _ & _ & _ & Hnone).
  - eexists _, _. split; [apply add_timestamp_result|].
    split; [reflexivity|]. split; [apply length_imap|].
    intros i row. rewrite list_lookup_imap.
    destruct (data !! i) as [row0|]; [|done].
    intros [= <-]. apply lookup_insert_eq.
Qed.

Lemma loaded_at_stamps_witness :
  load_job_fault calm_env = None ∧
  (∃ r w' batch,
     load_to_bigquery calm_env (omap accepted_record sample_rows)
       "your-project-id" "sales_data" "sales" empty_world = (r, w') ∧
     clock_reads w' = S (clock_reads empty_world) ∧
     rows_of (warehouse w') "sales_data" "sales" =
       rows_of (warehouse empty_world) "sales_data" "sales" ++ batch ∧
     length batch = length (omap accepted_record sample_rows) ∧
     ∀ row, row ∈ batch →
       row !! "loaded_at" =
         Some (VStr (utcnow_isoformat calm_env (clock_reads empty_world)))).
Proof.
  split; [reflexivity|].
  apply (loaded_at_stamps calm_env (omap accepted_record sample_rows) sample_rows
           "your-project-id" "sales_data" "sales" empty_world).
  reflexivity.
Defined.

Lemma ensure_destination_present ds tb w d t :
  warehouse w !! ds = Some d → dataset_tables d !! tb = Some t →
  ensure_destination ds tb w =
    (Ok t, set_stdout (stdout w ++ [DatasetExists ds; TableExists tb]) w).
Proof.
  intros Hd Ht. unfold ensure_destination. unfold mbind at 1. unfold M_bind.
  rewrite ensure_dataset_result, Hd.
  erewrite ensure_table_result by exact Hd. rewrite Ht.
  cbn. by rewrite <- app_assoc.
Qed.

(** C7: from any state of the warehouse, ensuring the dataset and the
    table succeeds; doing it a second time succeeds too, returns the same
    table and leaves the warehouse as the first call left it (only the two
    "already exists" lines are printed); the first call leaves the dataset
    with the table in it and touches no other dataset; and each step, when
    its resource already exists, changes nothing but the console. *)
Theorem ensure_destination_idempotent (dataset_id table_id : string) (w : World) :
  ∃ t1 w1 t2 w2,
    ensure_destination dataset_id table_id w = (Ok t1, w1) ∧
    ensure_destination dataset_id table_id w1 = (Ok t2, w2) ∧
    t2 = t1 ∧
    warehouse w2 = warehouse w1 ∧
    stdout w2 = stdout w1 ++ [DatasetExists dataset_id; TableExists table_id] ∧
    (∃ d, warehouse w1 !! dataset_id = Some d ∧
          dataset_tables d !! table_id = Some t1) ∧
    (∀ ds', ds' ≠ dataset_id → warehouse w1 !! ds' = warehouse w !! ds') ∧
    (∀ d, warehouse w !! dataset_id = Some d →
       ensure_dataset dataset_id w =
         (Ok (), set_stdout (stdout w ++ [DatasetExists dataset_id]) w)) ∧
    (∀ d t, warehouse w !! dataset_id = Some d →
       dataset_tables d !! table_id = Some t →
       ensure_table dataset_id table_id w =
         (Ok t, set_stdout (stdout w ++ [TableExists table_id]) w)).
Proof.
  destruct (ensure_destination_result dataset_id table_id w)
    as (t1 & w1 & Hrun & _ & (d & Hd & Ht) & Hother & _).
  exists t1, w1, t1. eexists. split; [exact Hrun|].
  split; [exact (ensure_destination_present _ _ _ _ _ Hd Ht)|].
  split; [done|]. split; [done|]. split; [done|].
  split; [by exists d|]. split; [exact Hother|]. split.
  - intros d0 Hd0. by rewrite ensure_dataset_result, Hd0.
  - intros d0 t Hd0 Ht0. erewrite ensure_table_result by exact Hd0. by rewrite Ht0.
Qed.

(** C8, at the failing input: when [pd.read_sql] raises in [2a.EL.py],
    the exception leaves the script and the connection opened by
    [pyodbc.connect] is still open. *)
Theorem connection_left_open_when_query_raises :
  (el_orders_script failing_read_env empty_world).1 = Raise DatabaseError ∧
  open_handles (el_orders_script failing_read_env empty_world).2 =
    [Connection connection_string].
Proof. split; vm_compute; reflexivity. Qed.

(** The CSV extractor, in contrast, leaves no handle open that was not
    open before, whatever the outcome of opening and reading. *)
Lemma extract_sales_data_releases csv_path w :
  ∃ w', extract_sales_data csv_path w =
          (default (Raise OSError) (files w !! csv_path), w') ∧
    (∀ h, h ∈ open_handles w' → h ∈ open_handles w) ∧
    (files w !! csv_path ≠ None → FileHandle csv_path ∉ open_handles w').
Proof.
  destruct (extract_sales_data_result csv_path w) as (w' & Hrun & Hopen & _).
  exists w'. split; [exact Hrun|]. rewrite Hopen. case_bool_decide as Hfile.
  - by split.
  - split; [intros h; apply filter_keeps|intros _; apply filter_removes].
Qed.

(** C9: when the load job succeeds and the reporting query raises, the
    exception leaves [load_to_bigquery] and the pipeline, and the batch is
    in the table all the same. *)
Theorem report_failure_fails_run (env : Env) (raw : list RawRecord)
    (data : list Row) (csv_path project_id dataset_id table_id : string)
    (w : World) (e : exn) :
  load_job_fault env = None →
  query_outcome env = Raise e →
  files w !! csv_path = Some (Ok raw) →
  (transform_sales_data raw).2 = Ok data →
  let batch :=
    (λ row : Row, <["loaded_at" := VStr (utcnow_isoformat env (clock_reads w))]> row)
      <$> data in
  (∃ w', load_to_bigquery env data project_id dataset_id table_id w = (Raise e, w') ∧
     rows_of (warehouse w') dataset_id table_id =
       rows_of (warehouse w) dataset_id table_id ++ batch) ∧
  (∃ w', run_etl_pipeline env csv_path project_id dataset_id table_id w = (Raise e, w') ∧
     rows_of (warehouse w') dataset_id table_id =
       rows_of (warehouse w) dataset_id table_id ++ batch).
Proof.
  intros Hjob Hquery Hfile Hdata batch. split.
  - destruct (load_to_bigquery_result env data project_id dataset_id table_id w Hjob)
      as (w' & Hrun & Hrows & _).
    rewrite Hquery in Hrun. by exists w'.
  - destruct (run_etl_pipeline_result env csv_path project_id dataset_id table_id
                raw data w Hfile Hdata Hjob) as (r & w' & Hrun & Hfail & _ & Hrows).
    rewrite (Hfail e Hquery) in Hrun. by exists w'.
Qed.

Lemma sample_rows_result :
  (transform_sales_data sample_rows).2 = Ok (omap accepted_record sample_rows).
Proof.
  rewrite transform_result.
  by assert (first_uncaught sample_rows = None) as -> by (vm_compute; reflexivity).
Qed.

Lemma report_failure_fails_run_witness :
  load_job_fault failing_query_env = None ∧
  query_outcome failing_query_env = Raise GoogleAPIError ∧
  files csv_world !! "sales_data.csv" = Some (Ok sample_rows) ∧
  (transform_sales_data sample_rows).2 = Ok (omap accepted_record sample_rows) ∧
  (∃ w', load_to_bigquery failing_query_env (omap accepted_record sample_rows)
           "your-project-id" "sales_data" "sales" csv_world = (Raise GoogleAPIError, w') ∧
     length (rows_of (warehouse w') "sales_data" "sales") = 5%nat) ∧
  (∃ w', run_etl_pipeline failing_query_env "sales_data.csv"
           "your-project-id" "sales_data" "sales" csv_world = (Raise GoogleAPIError, w') ∧
     length (rows_of (warehouse w') "sales_data" "sales") = 5%nat).
Proof.
  assert (files csv_world !! "sales_data.csv" = Some (Ok sample_rows)) as Hfile
    by reflexivity.
  assert (length (omap accepted_record sample_rows) = 5%nat) as Hlen
    by (vm_compute; reflexivity).
  destruct (report_failure_fails_run failing_query_env sample_rows
              (omap accepted_record sample_rows) "sales_data.csv"
              "your-project-id" "sales_data" "sales" csv_world GoogleAPIError
              eq_refl eq_refl Hfile sample_rows_result)
    as [(w1 & Hload & Hrows1) (w2 & Hrun & Hrows2)].
  split; [reflexivity|]. split; [reflexivity|]. split; [exact Hfile|].
  split; [exact sample_rows_result|]. split.
  - exists w1. split; [exact Hload|].
    rewrite Hrows1, length_app, length_fmap, Hlen. reflexivity.
  - exists w2. split; [exact Hrun|].
    rewrite Hrows2, length_app, length_fmap, Hlen. reflexivity.
Defined.

(** C10, as stated, fails: a record without a [customer_name] column whose
    order id, quantity ([10^309]), price and date are valid is not output
    with the customer ["Unknown"]: the batch ends with the
    [OverflowError] of [quantity * price]. *)
Lemma anonymous_huge_record_lost :
  (∃ q p d, Csv.valid_record Csv.text_builtins Csv.anonymous_huge_row q p d) ∧
  Csv.anonymous_huge_row !! "customer_name" = None ∧
  (Csv.transform_sales_data Csv.text_builtins [Csv.anonymous_huge_row]).2 =
    Raise OverflowError.
Proof.
  split; [|split; [reflexivity|vm_compute; reflexivity]].
  exists (10 ^ 309), (PyFloat.of_small_int 1),
    {| PyDate.year := 2026; PyDate.month := 2; PyDate.day := 22 |}.
  eexists _, _, _, _.
  split; [reflexivity|]. split; [vm_compute; discriminate|].
  split; [reflexivity|]. split; [vm_compute; reflexivity|].
  split; [reflexivity|].
  split; [reflexivity|]. split; [vm_compute; reflexivity|].
  split; [vm_compute; reflexivity|].
  split; [reflexivity|]. vm_compute. reflexivity.
Qed.

(** C10 (amended): a record whose order id, quantity, price and date are
    valid is never skipped or caught as an error, whatever its
    [customer_name] and [product] are; and when its quantity converts to
    a float and neither of the two fields holds [None], it is enriched:
    its [customer] is the trimmed, title-cased [customer_name], that of
    ["Unknown"] when the column is missing, and its [product] is the
    trimmed [product], that of the empty string when the column is
    missing.  The string built-ins are arbitrary. *)
Theorem customer_and_product_pass_through (B : Csv.Builtins)
    (row : Csv.RawRecord) (q : Z) (p : spec_float) (d : PyDate.date) :
  Csv.valid_record B row q p d →
  Csv.try_row B row ≠ Ok None ∧
  (∀ e, Csv.try_row B row = Raise e → caught e = false) ∧
  (∀ f, PyFloat.of_int q = Ok f →
     row !! "customer_name" ≠ Some Csv.NoneCell →
     row !! "product" ≠ Some Csv.NoneCell →
     ∃ r, (Csv.transform_sales_data B [row]).2 = Ok [r] ∧
       (row !! "customer_name" = None →
          r !! "customer" =
            Some (VStr (Csv.str_title B (Csv.str_strip B "Unknown")))) ∧
       (∀ name, row !! "customer_name" = Some (Csv.Str name) →
          r !! "customer" =
            Some (VStr (Csv.str_title B (Csv.str_strip B name)))) ∧
       (row !! "product" = None →
          r !! "product" = Some (VStr (Csv.str_strip B ""))) ∧
       (∀ product, row !! "product" = Some (Csv.Str product) →
          r !! "product" = Some (VStr (Csv.str_strip B product)))).
Proof.
  intros Hvalid. destruct (csv_try_row_valid_cases B row q p d Hvalid) as [Hskip Hraise].
  split; [exact Hskip|]. split; [exact Hraise|].
  intros f Hf Hcustomer Hproduct.
  destruct (csv_get_str row "customer_name" "Unknown" Hcustomer) as [name Hname].
  destruct (csv_get_str row "product" "" Hproduct) as [product Hprod].
  destruct (csv_try_row_enriches B row q p d f name product Hvalid Hf Hname Hprod)
    as (r & Hr & Hc & Hp & _).
  exists r. split; [by apply csv_single_row_result|].
  unfold Csv.get in Hname, Hprod.
  split; [intros Hnone; rewrite Hnone in Hname; cbn in Hname; by simplify_eq|].
  split; [intros name' Hsome; rewrite Hsome in Hname; cbn in Hname; by simplify_eq|].
  split; [intros Hnone; rewrite Hnone in Hprod; cbn in Hprod; by simplify_eq|].
  intros product' Hsome. rewrite Hsome in Hprod. cbn in Hprod. by simplify_eq.
Qed.

Lemma customer_and_product_pass_through_witness :
  Csv.valid_record Csv.text_builtins Csv.anonymous_row 1
    (PyFloat.of_decimal false 999 (-2))
    {| PyDate.year := 2026; PyDate.month := 3; PyDate.day := 1 |} ∧
  Csv.anonymous_row !! "customer_name" = None ∧
  Csv.anonymous_row !! "product" = None ∧
  ∃ r, (Csv.transform_sales_data Csv.text_builtins [Csv.anonymous_row]).2 = Ok [r] ∧
    r !! "customer" = Some (VStr "Unknown") ∧
    r !! "product" = Some (VStr "").
Proof.
  assert (Csv.valid_record Csv.text_builtins Csv.anonymous_row 1
            (PyFloat.of_decimal false 999 (-2))
            {| PyDate.year := 2026; PyDate.month := 3; PyDate.day := 1 |}) as Hvalid.
  { exists "ORD010", "1", "9.99", "2026-03-01".
    split; [reflexivity|]. split; [vm_compute; discriminate|].
    repeat split; vm_compute; reflexivity. }
  assert (Csv.anonymous_row !! "customer_name" = None) as Hnone by reflexivity.
  assert (Csv.anonymous_row !! "product" = None) as Hnone' by reflexivity.
  destruct (customer_and_product_pass_through _ _ _ _ _ Hvalid) as (_ & _ & Hrow).
  destruct (Hrow (PyFloat.of_small_int 1)) as (r & Hout & Hunknown & _ & Hproduct & _).
  { vm_compute. reflexivity. }
  { by rewrite Hnone. }
  { by rewrite Hnone'. }
  split; [exact Hvalid|]. split; [exact Hnone|]. split; [exact Hnone'|].
  exists r. split; [exact Hout|].
  split; [exact (Hunknown Hnone)|exact (Hproduct Hnone')].
Defined.

(** * Further properties of the transformer *)

(** X2: a row that lacks one of the columns [order_id], [quantity],
    [price] or [order_date] contributes no dictionary; and when none of
    the columns the handler reads holds [None], the row is skipped or
    caught as an error and does not end the loop. *)
Theorem missing_column_never_enriched (B : Csv.Builtins) (row : Csv.RawRecord)
    (column : string) :
  Csv.fallbacks_rejected B →
  column ∈ Csv.required_columns → row !! column = None →
  Csv.accepted_record B row = None ∧
  (Csv.value_errors_only B →
   (∀ k, k ∈ Csv.columns → row !! k ≠ Some Csv.NoneCell) →
   Csv.handled B row = true).
Proof.
  intros (Hstrip & Hint0 & Hfloat0 & Hdate0) Hcolumn Hmissing.
  assert (∀ r, Csv.try_row B row ≠ Ok (Some r)) as Hnot.
  { intros r. unfold Csv.try_row.
    destruct (Csv.get row "order_id" "") as [oid|] eqn:Hoid; step_csv; [|done].
    destruct (Csv.get row "customer_name" "Unknown") as [name|]; step_csv; [|done].
    destruct (Csv.get row "product" "") as [product|]; step_csv; [|done].
    destruct (Csv.get row "quantity" "0") as [qs|] eqn:Hqs; step_csv; [|done].
    destruct (Csv.int_of_str B qs) as [q|] eqn:Hq; step_csv; [|done].
    destruct (Csv.get row "price" "0") as [ps|] eqn:Hps; step_csv; [|done].
    destruct (Csv.float_of_str B ps) as [p|] eqn:Hp; step_csv; [|done].
    destruct (Csv.get row "order_date" "") as [ds|] eqn:Hds; step_csv; [|done].
    destruct (bool_decide (Csv.str_strip B oid = "")) eqn:Hid; cbn [orb]; [done|].
    destruct (q <=? 0) eqn:Hpos; cbn [orb]; [done|].
    destruct (PyFloat.leb p (PyFloat.of_small_int 0)) eqn:Hle; [done|].
    apply bool_decide_eq_false in Hid.
    unfold Csv.required_columns in Hcolumn.
    apply list_elem_of_In in Hcolumn. cbn [In] in Hcolumn.
    destruct Hcolumn as [<-|[<-|[<-|[<-|[]]]]].
    - rewrite (csv_get_missing _ _ _ Hmissing) in Hoid.
      injection Hoid as <-. by rewrite Hstrip in Hid.
    - rewrite (csv_get_missing _ _ _ Hmissing) in Hqs.
      injection Hqs as <-. rewrite Hint0 in Hq. by injection Hq as <-.
    - rewrite (csv_get_missing _ _ _ Hmissing) in Hps.
      injection Hps as <-. rewrite Hfloat0 in Hp. injection Hp as <-.
      by vm_compute in Hle.
    - rewrite (csv_get_missing _ _ _ Hmissing) in Hds.
      injection Hds as <-. rewrite Hstrip, Hdate0. by step_csv. }
  split.
  - unfold Csv.accepted_record.
    destruct (Csv.try_row B row) as [[r|]|e] eqn:Hrow; [by destruct (Hnot r)|done..].
  - intros HB Hcells. unfold Csv.handled.
    destruct (Csv.try_row B row) as [r|e] eqn:Hrow; [done|].
    destruct (caught e) eqn:Hc; [done|].
    destruct (csv_try_row_raises B row e HB Hrow Hc)
      as [(_ & k & Hk & Hnone)|[(_ & k & Hk & Hnone)|(_ & q & p & d & Hchecks & _)]].
    + destruct (Hcells k); [|done].
      apply list_elem_of_In in Hk. apply list_elem_of_In.
      cbn [Csv.stripped_columns Csv.columns In] in *. tauto.
    + destruct (Hcells k); [|done].
      apply list_elem_of_In in Hk. apply list_elem_of_In.
      cbn [Csv.number_columns Csv.columns In] in *. tauto.
    + destruct Hchecks
        as (oid & qs & ps & ds & Hoid & Hid & Hqs & Hq & Hpos & Hps & Hp & Hle & Hds & Hd).
      unfold Csv.required_columns in Hcolumn.
      apply list_elem_of_In in Hcolumn. cbn [In] in Hcolumn.
      destruct Hcolumn as [<-|[<-|[<-|[<-|[]]]]].
      * rewrite (csv_get_missing _ _ _ Hmissing) in Hoid.
        injection Hoid as <-. by rewrite Hstrip in Hid.
      * rewrite (csv_get_missing _ _ _ Hmissing) in Hqs.
        injection Hqs as <-. rewrite Hint0 in Hq. injection Hq as <-. lia.
      * rewrite (csv_get_missing _ _ _ Hmissing) in Hps.
        injection Hps as <-. rewrite Hfloat0 in Hp. injection Hp as <-.
        by vm_compute in Hle.
      * rewrite (csv_get_missing _ _ _ Hmissing) in Hds.
        injection Hds as <-. by rewrite Hstrip, Hdate0 in Hd.
Qed.

Lemma missing_column_never_enriched_witness :
  "price" ∈ Csv.required_columns ∧ Csv.no_price_row !! "price" = None ∧
  Csv.accepted_record Csv.text_builtins Csv.no_price_row = None ∧
  Csv.handled Csv.text_builtins Csv.no_price_row = true.
Proof.
  assert ("price" ∈ Csv.required_columns) as Hcolumn
    by (unfold Csv.required_columns; set_solver).
  assert (Csv.no_price_row !! "price" = None) as Hmissing by reflexivity.
  destruct (missing_column_never_enriched Csv.text_builtins Csv.no_price_row "price"
              csv_fallbacks_rejected_text Hcolumn Hmissing)
    as [Hnone Hhandled].
  split; [exact Hcolumn|]. split; [exact Hmissing|]. split; [exact Hnone|].
  apply Hhandled; [exact csv_value_errors_only_text|]. intros k Hk.
  unfold Csv.columns in Hk. apply list_elem_of_In in Hk. cbn [In] in Hk.
  destruct Hk as [<-|[<-|[<-|[<-|[<-|[<-|[]]]]]]]; vm_compute; discriminate.
Defined.

(** X3: a price that parses to NaN passes the test [price <= 0]: with the
    other fields valid and a quantity that converts to a float, the row
    is enriched, its [total_amount] and [final_amount] are NaN, its
    [discount_rate] is [0.0] and its [category] is ["Standard"]. *)
Theorem nan_price_is_accepted (row : RawRecord) (q : Z) (d : PyDate.date)
    (f : spec_float) :
  PyStr.strip (get row "order_id" "") ≠ "" →
  PyInt.of_str (get row "quantity" "0") = Ok q → 0 < q →
  PyFloat.of_str (get row "price" "0") = Ok S754_nan →
  PyDate.strptime (PyStr.strip (get row "order_date" "")) = Ok d →
  PyFloat.of_int q = Ok f →
  ∃ r, (transform_sales_data [row]).2 = Ok [r] ∧
    r !! "price" = Some (VFloat S754_nan) ∧
    r !! "total_amount" = Some (VFloat S754_nan) ∧
    r !! "discount_rate" = Some (VFloat f_zero) ∧
    r !! "final_amount" = Some (VFloat S754_nan) ∧
    r !! "category" = Some (VStr "Standard").
Proof.
  intros Hid Hq Hpos Hp Hd Hf.
  assert (try_row row = Ok (Some (record_of row)) ∧
          record_of row !! "price" = Some (VFloat S754_nan) ∧
          record_of row !! "total_amount" = Some (VFloat S754_nan) ∧
          record_of row !! "discount_rate" = Some (VFloat f_zero) ∧
          record_of row !! "final_amount" = Some (VFloat S754_nan) ∧
          record_of row !! "category" = Some (VStr "Standard")) as (Hrow & Hrest).
  { unfold record_of, accepted_record, try_row. rewrite Hq, Hp. step_try_row.
    rewrite bool_decide_eq_false_2, (proj2 (Z.leb_gt _ _)) by done.
    step_try_row. rewrite Hd, Hf. step_try_row.
    assert (PyFloat.mul f S754_nan = S754_nan) as -> by (by destruct f).
    split; [reflexivity|]. by repeat split. }
  exists (record_of row). split; [|exact Hrest].
  apply single_row_result. unfold accepts. by rewrite Hrow.
Qed.

Lemma nan_price_is_accepted_witness :
  PyStr.strip (get nan_price_row "order_id" "") ≠ "" ∧
  PyInt.of_str (get nan_price_row "quantity" "0") = Ok 3 ∧ 0 < 3 ∧
  PyFloat.of_str (get nan_price_row "price" "0") = Ok S754_nan ∧
  PyDate.strptime (PyStr.strip (get nan_price_row "order_date" "")) =
    Ok {| PyDate.year := 2026; PyDate.month := 2; PyDate.day := 25 |} ∧
  PyFloat.of_int 3 = Ok (S754_finite false 6755399441055744 (-51)) ∧
  ∃ r, (transform_sales_data [nan_price_row]).2 = Ok [r] ∧
    r !! "price" = Some (VFloat S754_nan) ∧
    r !! "total_amount" = Some (VFloat S754_nan) ∧
    r !! "discount_rate" = Some (VFloat f_zero) ∧
    r !! "final_amount" = Some (VFloat S754_nan) ∧
    r !! "category" = Some (VStr "Standard").
Proof.
  assert (PyStr.strip (get nan_price_row "order_id" "") ≠ "") as H1
    by (vm_compute; discriminate).
  assert (PyInt.of_str (get nan_price_row "quantity" "0") = Ok 3) as H2
    by (vm_compute; reflexivity).
  assert (0 < 3) as H3 by lia.
  assert (PyFloat.of_str (get nan_price_row "price" "0") = Ok S754_nan) as H4
    by (vm_compute; reflexivity).
  assert (PyDate.strptime (PyStr.strip (get nan_price_row "order_date" "")) =
            Ok {| PyDate.year := 2026; PyDate.month := 2; PyDate.day := 25 |}) as H5
    by (vm_compute; reflexivity).
  assert (PyFloat.of_int 3 = Ok (S754_finite false 6755399441055744 (-51))) as H6
    by (vm_compute; reflexivity).
  exact (conj H1 (conj H2 (conj H3 (conj H4 (conj H5 (conj H6
           (nan_price_is_accepted _ _ _ _ H1 H2 H3 H4 H5 H6))))))).
Defined.



Lemma accepted_or_rejected row :
  (length (omap accepted_record [row]) + length (omap rejection_line [row]) = 1)%nat.
Proof.
  cbn [omap list_omap]. unfold accepted_record, rejection_line.
  by destruct (try_row row) as [[r|]|e].
Qed.

Lemma transform_loop_log rows transformed out :
  first_uncaught rows = None →
  (transform_loop rows transformed out).1 =
    out ++ omap rejection_line rows ++
      [TransformedCount (length (transformed ++ omap accepted_record rows))].
Proof.
  revert transformed out.
  induction rows as [|row rest IH]; intros transformed out Hnone.
  - cbn. by rewrite app_nil_r.
  - cbn [first_uncaught] in Hnone. cbn [transform_loop omap list_omap].
    unfold uncaught in Hnone. unfold accepted_record, rejection_line.
    destruct (try_row row) as [[r|]|e].
    + rewrite IH by done. by rewrite <- app_assoc.
    + rewrite IH by done. by rewrite <- app_assoc.
    + destruct (caught e); [|done]. rewrite IH by done. by rewrite <- app_assoc.
Qed.

(** X5: when the transform returns, it has printed its opening line, one
    line for each row that is not in the output, in input order, and a
    closing line with the number of dictionaries returned; every input row
    is accounted for once, in the output or in the diagnostics. *)
Theorem transform_log_accounts_for_rows (raw : list RawRecord) (out : list Row) :
  (transform_sales_data raw).2 = Ok out →
  (transform_sales_data raw).1 =
    TransformStart :: omap rejection_line raw ++ [TransformedCount (length out)] ∧
  (length out + length (omap rejection_line raw) = length raw)%nat.
Proof.
  rewrite transform_result.
  destruct (first_uncaught raw) eqn:Hnone; [done|]. intros [= <-]. split.
  - unfold transform_sales_data. by rewrite transform_loop_log.
  - clear Hnone. induction raw as [|row rest IH]; [done|].
    change (row :: rest) with ([row] ++ rest).
    rewrite !omap_app, !length_app. pose proof (accepted_or_rejected row) as Hrow.
    change (length [row]) with 1%nat. lia.
Qed.

Lemma transform_log_accounts_for_rows_witness :
  (transform_sales_data sample_rows).2 = Ok (omap accepted_record sample_rows) ∧
  (transform_sales_data sample_rows).1 =
    TransformStart :: omap rejection_line sample_rows ++
      [TransformedCount (length (omap accepted_record sample_rows))] ∧
  (length (omap accepted_record sample_rows) +
   length (omap rejection_line sample_rows) = length sample_rows)%nat.
Proof.
  exact (conj sample_rows_result
           (transform_log_accounts_for_rows _ _ sample_rows_result)).
Defined.

Lemma first_uncaught_app l1 l2 :
  first_uncaught (l1 ++ l2) =
    match first_uncaught l1 with
    | Some e => Some e
    | None => first_uncaught l2
    end.
Proof.
  induction l1 as [|row rest IH]; [done|]. cbn [app first_uncaught].
  by destruct (uncaught row).
Qed.

(** X6: transforming two batches one after the other is transforming
    their concatenation: the outputs are concatenated, and the exception of
    the first batch that raises is the one that comes out. *)
Theorem transform_concatenation (batch1 batch2 : list RawRecord) :
  (transform_sales_data (batch1 ++ batch2)).2 =
    match (transform_sales_data batch1).2 with
    | Ok out1 =>
        match (transform_sales_data batch2).2 with
        | Ok out2 => Ok (out1 ++ out2)
        | Raise e => Raise e
        end
    | Raise e => Raise e
    end.
Proof.
  rewrite !transform_result, first_uncaught_app.
  destruct (first_uncaught batch1); [done|].
  destruct (first_uncaught batch2); [done|]. by rewrite omap_app.
Qed.

(** The checked fields and the keys of an appended dictionary. *)
Lemma try_row_record row r :
  try_row row = Ok (Some r) →
  ∃ q p d,
    PyInt.of_str (get row "quantity" "0") = Ok q ∧ 0 < q ∧
    PyFloat.of_str (get row "price" "0") = Ok p ∧
    PyFloat.leb p (PyFloat.of_small_int 0) = false ∧
    PyDate.strptime (PyStr.strip (get row "order_date" "")) = Ok d ∧
    PyStr.strip (get row "order_id" "") ≠ "" ∧
    r !! "order_id" = Some (VStr (PyStr.strip (get row "order_id" ""))) ∧
    r !! "quantity" = Some (VInt q) ∧
    r !! "price" = Some (VFloat p) ∧
    r !! "order_date" = Some (VStr (PyDate.isoformat d)) ∧
    dom r = schema_columns ∖ {["loaded_at"]}.
Proof.
  unfold try_row.
  destruct (PyInt.of_str _) as [q|]; step_try_row; [|done].
  destruct (PyFloat.of_str _) as [p|]; step_try_row; [|done].
  case_bool_decide as Hid; step_try_row; [done|].
  destruct (Z.leb_spec q 0) as [|Hq]; step_try_row; [done|].
  destruct (PyFloat.leb p _) eqn:Hp; step_try_row; [done|].
  destruct (PyDate.strptime _) as [d|]; step_try_row; [|done].
  destruct (PyFloat.of_int q) as [f|] eqn:Hf; step_try_row; [|done].
  intros [= <-]. exists q, p, d. repeat (split; [done|]).
  rewrite !dom_insert_L, dom_singleton_L.
  apply (bool_decide_unpack _). vm_compute. exact I.
Qed.

Lemma accepts_record_of row :
  accepts row = true → accepted_record row = Some (record_of row).
Proof.
  unfold accepts, record_of, accepted_record.
  by destruct (try_row row) as [[r|]|e].
Qed.

(** * The date of an order *)

Lemma isdigit_value c :
  PyStr.isdigit c = true → 0 ≤ PyStr.digit_value c ≤ 9.
Proof.
  unfold PyStr.isdigit, PyStr.digit_value.
  intros [H1%N.leb_le H2%N.leb_le]%andb_prop. lia.
Qed.

Lemma in_range_value lo hi c :
  PyDate.in_range lo hi c = true →
  Z.of_N (PyStr.code lo) - 48 ≤ PyStr.digit_value c ≤ Z.of_N (PyStr.code hi) - 48.
Proof.
  unfold PyDate.in_range, PyStr.digit_value.
  intros [H1%N.leb_le H2%N.leb_le]%andb_prop. lia.
Qed.

Lemma two_value lo hi lo' hi' cs v rest :
  (v, rest) ∈ PyDate.two lo hi lo' hi' cs →
  10 * (Z.of_N (PyStr.code lo) - 48) + (Z.of_N (PyStr.code lo') - 48) ≤ v
    ≤ 10 * (Z.of_N (PyStr.code hi) - 48) + (Z.of_N (PyStr.code hi') - 48).
Proof.
  unfold PyDate.two. destruct cs as [|a [|b r]]; [by intros ?%elem_of_nil..|].
  destruct (PyDate.in_range lo hi a) eqn:Ha; [|by intros ?%elem_of_nil].
  destruct (PyDate.in_range lo' hi' b) eqn:Hb; [|by intros ?%elem_of_nil].
  intros [= -> ->]%list_elem_of_singleton.
  apply in_range_value in Ha, Hb. lia.
Qed.

Lemma one_value lo hi cs v rest :
  (v, rest) ∈ PyDate.one lo hi cs →
  Z.of_N (PyStr.code lo) - 48 ≤ v ≤ Z.of_N (PyStr.code hi) - 48.
Proof.
  unfold PyDate.one. destruct cs as [|a r]; [by intros ?%elem_of_nil|].
  destruct (PyDate.in_range lo hi a) eqn:Ha; [|by intros ?%elem_of_nil].
  intros [= -> ->]%list_elem_of_singleton. by apply in_range_value in Ha.
Qed.

Lemma space_one_value lo hi cs v rest :
  (v, rest) ∈ PyDate.space_one lo hi cs →
  Z.of_N (PyStr.code lo) - 48 ≤ v ≤ Z.of_N (PyStr.code hi) - 48.
Proof.
  unfold PyDate.space_one. destruct cs as [|a [|b r]]; [by intros ?%elem_of_nil..|].
  destruct (bool_decide _); [|by intros ?%elem_of_nil].
  destruct (PyDate.in_range lo hi b) eqn:Hb; [|by intros ?%elem_of_nil].
  intros [= -> ->]%list_elem_of_singleton. by apply in_range_value in Hb.
Qed.

Lemma re_Y_value cs v rest : (v, rest) ∈ PyDate.re_Y cs → 0 ≤ v ≤ 9999.
Proof.
  unfold PyDate.re_Y.
  destruct cs as [|a [|b [|c [|d r]]]]; [by intros ?%elem_of_nil..|].
  destruct (PyStr.isdigit a) eqn:Ha; [|by intros ?%elem_of_nil].
  destruct (PyStr.isdigit b) eqn:Hb; [|by intros ?%elem_of_nil].
  destruct (PyStr.isdigit c) eqn:Hc; [|by intros ?%elem_of_nil].
  destruct (PyStr.isdigit d) eqn:Hd; [|by intros ?%elem_of_nil].
  intros [= -> ->]%list_elem_of_singleton.
  apply isdigit_value in Ha, Hb, Hc, Hd. cbn. lia.
Qed.

Lemma re_m_value cs v rest : (v, rest) ∈ PyDate.re_m cs → 1 ≤ v ≤ 12.
Proof.
  unfold PyDate.re_m. rewrite !elem_of_app.
  intros [H|[H|H]]; [apply two_value in H..|apply one_value in H];
    cbn in H; lia.
Qed.

Lemma re_d_value cs v rest : (v, rest) ∈ PyDate.re_d cs → 1 ≤ v ≤ 31.
Proof.
  unfold PyDate.re_d. rewrite !elem_of_app.
  intros [H|[H|[H|[H|H]]]];
    [apply two_value in H..|apply one_value in H|apply space_one_value in H];
    cbn in H; lia.
Qed.

(** A parsed date is a date of the calendar, in the years 1 to 9999. *)
Lemma strptime_calendar s d :
  PyDate.strptime s = Ok d →
  1 ≤ PyDate.year d ≤ 9999 ∧ 1 ≤ PyDate.month d ≤ 12 ∧
  1 ≤ PyDate.day d ≤ PyDate.days_in_month (PyDate.year d) (PyDate.month d).
Proof.
  unfold PyDate.strptime.
  destruct (PyDate.re_match _) as [[[[y m] dd] [|c rest]]|] eqn:Hmatch; [|done..].
  destruct (1 <=? y) eqn:Hy; [|done].
  destruct (dd <=? PyDate.days_in_month y m) eqn:Hdd; [|done].
  cbn [andb]. intros [= <-]. cbn [PyDate.year PyDate.month PyDate.day].
  apply Z.leb_le in Hy, Hdd.
  unfold PyDate.re_match in Hmatch. apply head_Some_elem_of in Hmatch.
  apply list_elem_of_bind in Hmatch as ([y0 r0] & Hmatch & HY).
  apply list_elem_of_bind in Hmatch as (r1 & Hmatch & _).
  apply list_elem_of_bind in Hmatch as ([m0 r2] & Hmatch & HM).
  apply list_elem_of_bind in Hmatch as (r3 & Hmatch & _).
  apply list_elem_of_bind in Hmatch as ([d0 r4] & Hmatch & HD).
  apply list_elem_of_singleton in Hmatch as [= -> -> -> _].
  apply re_Y_value in HY. apply re_m_value in HM. apply re_d_value in HD.
  cbn [fst snd] in *. lia.
Qed.

Lemma digit_char_code n :
  PyStr.code (PyDate.digit_char n) = Z.to_N (48 + n mod 10).
Proof.
  unfold PyStr.code, PyDate.digit_char. apply N_ascii_embedding.
  pose proof (Z.mod_pos_bound n 10). lia.
Qed.

Lemma digit_char_isdigit n : PyStr.isdigit (PyDate.digit_char n) = true.
Proof.
  unfold PyStr.isdigit. rewrite digit_char_code.
  pose proof (Z.mod_pos_bound n 10).
  apply andb_true_intro. split; apply N.leb_le; lia.
Qed.

Lemma digit_char_value n : PyStr.digit_value (PyDate.digit_char n) = n mod 10.
Proof.
  unfold PyStr.digit_value. rewrite digit_char_code.
  pose proof (Z.mod_pos_bound n 10). lia.
Qed.

Lemma re_Y_digit_chars y rest :
  0 ≤ y ≤ 9999 →
  PyDate.re_Y (PyDate.digit_char (y / 1000) :: PyDate.digit_char (y / 100)
                 :: PyDate.digit_char (y / 10) :: PyDate.digit_char y :: rest) =
    [(y, rest)].
Proof.
  intros Hy. unfold PyDate.re_Y. rewrite !digit_char_isdigit. cbn [andb].
  do 2 f_equal. cbn. rewrite !digit_char_value.
  Z.div_mod_to_equations. lia.
Qed.

(** The characters [isoformat] writes are matched back to the numbers
    they were written from. *)
Lemma re_match_isoformat y m dd :
  0 ≤ y ≤ 9999 → 1 ≤ m ≤ 12 → 1 ≤ dd ≤ 31 →
  PyDate.re_match
    [PyDate.digit_char (y / 1000); PyDate.digit_char (y / 100);
     PyDate.digit_char (y / 10); PyDate.digit_char y; "-"%char;
     PyDate.digit_char (m / 10); PyDate.digit_char m; "-"%char;
     PyDate.digit_char (dd / 10); PyDate.digit_char dd] =
    Some (y, m, dd, []).
Proof.
  intros Hy Hm Hdd. unfold PyDate.re_match. rewrite re_Y_digit_chars by done.
  assert (m = 1 ∨ m = 2 ∨ m = 3 ∨ m = 4 ∨ m = 5 ∨ m = 6 ∨ m = 7 ∨ m = 8 ∨ m = 9 ∨ m = 10 ∨ m = 11 ∨ m = 12) as Hmonth by lia.
  assert (dd = 1 ∨ dd = 2 ∨ dd = 3 ∨ dd = 4 ∨ dd = 5 ∨ dd = 6 ∨ dd = 7 ∨ dd = 8 ∨ dd = 9 ∨ dd = 10 ∨ dd = 11 ∨ dd = 12 ∨ dd = 13 ∨ dd = 14 ∨ dd = 15 ∨ dd = 16 ∨ dd = 17 ∨ dd = 18 ∨ dd = 19 ∨ dd = 20 ∨ dd = 21 ∨ dd = 22 ∨ dd = 23 ∨ dd = 24 ∨ dd = 25 ∨ dd = 26 ∨ dd = 27 ∨ dd = 28 ∨ dd = 29 ∨ dd = 30 ∨ dd = 31) as Hday by lia.
  clear Hy Hm Hdd.
  repeat (destruct Hmonth as [->|Hmonth]); [..|subst m];
    repeat (destruct Hday as [->|Hday]); try subst dd;
    vm_compute; reflexivity.
Qed.

(** Writing a parsed date and parsing it again. *)
Lemma strptime_isoformat (s : string) (d : PyDate.date) :
  PyDate.strptime s = Ok d →
  PyDate.strptime (PyDate.isoformat d) = Ok d ∧
  String.length (PyDate.isoformat d) = 10%nat.
Proof.
  intros (Hy & Hm & Hdd)%strptime_calendar. split; [|reflexivity].
  destruct d as [y m dd]. cbn [PyDate.year PyDate.month PyDate.day] in *.
  assert (PyDate.days_in_month y m ≤ 31) as Hmax.
  { unfold PyDate.days_in_month. repeat case_match; lia. }
  unfold PyDate.strptime, PyDate.isoformat.
  rewrite String.list_ascii_of_string_of_list_ascii.
  cbn [PyDate.year PyDate.month PyDate.day].
  rewrite re_match_isoformat by lia.
  by rewrite (proj2 (Z.leb_le 1 y)), (proj2 (Z.leb_le dd _)) by lia.
Qed.

(** X8: the date string stored in a record parses back to the date it
    was written from, and has ten characters: [strptime] followed by
    [isoformat] puts a date in the form YYYY-MM-DD, and doing it again
    changes nothing. *)
Theorem isoformat_parses_back (s : string) (d : PyDate.date) :
  PyDate.strptime s = Ok d →
  PyDate.strptime (PyDate.isoformat d) = Ok d ∧
  String.length (PyDate.isoformat d) = 10%nat.
Proof. exact (strptime_isoformat s d). Qed.

Lemma isoformat_parses_back_witness :
  PyDate.strptime "2026-2-5" =
    Ok {| PyDate.year := 2026; PyDate.month := 2; PyDate.day := 5 |} ∧
  PyDate.strptime
    (PyDate.isoformat {| PyDate.year := 2026; PyDate.month := 2; PyDate.day := 5 |}) =
    Ok {| PyDate.year := 2026; PyDate.month := 2; PyDate.day := 5 |} ∧
  String.length
    (PyDate.isoformat {| PyDate.year := 2026; PyDate.month := 2; PyDate.day := 5 |}) =
    10%nat.
Proof.
  assert (PyDate.strptime "2026-2-5" =
            Ok {| PyDate.year := 2026; PyDate.month := 2; PyDate.day := 5 |}) as Hparse
    by (vm_compute; reflexivity).
  exact (conj Hparse (isoformat_parses_back _ _ Hparse)).
Defined.

(** * Further properties of the loader *)

Lemma dataset_insert_id (d : dataset) tb t :
  dataset_tables d !! tb = Some t →
  {| dataset_location := dataset_location d;
     dataset_tables := <[tb := t]> (dataset_tables d) |} = d.
Proof. intros Ht. rewrite insert_id by done. by destruct d. Qed.

(** The exact state the two creation steps leave. *)
Lemma ensure_destination_exact ds tb w :
  ∃ t w', ensure_destination ds tb w = (Ok t, w') ∧
    warehouse w' = ensured_warehouse ds tb (warehouse w) ∧
    (∃ d, warehouse w' !! ds = Some d ∧ dataset_tables d !! tb = Some t) ∧
    clock_reads w' = clock_reads w ∧
    open_handles w' = open_handles w ∧
    files w' = files w.
Proof.
  unfold ensure_destination. unfold mbind at 1. unfold M_bind.
  rewrite ensure_dataset_result. unfold ensured_warehouse.
  destruct (warehouse w !! ds) as [d|] eqn:Hd; cbn [from_option id].
  - erewrite ensure_table_result by exact Hd.
    destruct (dataset_tables d !! tb) as [t|] eqn:Ht; cbn [from_option id].
    + exists t. eexists. split; [done|]. cbn.
      rewrite dataset_insert_id, insert_id by done. repeat split; eauto.
    + eexists _, _. split; [done|]. cbn. rewrite lookup_insert_eq.
      repeat split. eexists. split; [done|]. cbn. apply lookup_insert_eq.
  - erewrite ensure_table_result by (cbn; apply lookup_insert_eq).
    cbn. rewrite lookup_empty. eexists _, _. split; [done|]. cbn.
    rewrite insert_insert_eq, lookup_insert_eq.
    repeat split. eexists. split; [done|]. cbn. apply lookup_insert_eq.
Qed.

Lemma rows_of_ensured ds tb b ds' tb' :
  rows_of (ensured_warehouse ds tb b) ds' tb' = rows_of b ds' tb'.
Proof.
  unfold rows_of, ensured_warehouse.
  destruct (decide (ds' = ds)) as [->|Hds].
  - rewrite lookup_insert_eq. cbn.
    destruct (b !! ds) as [d|]; cbn.
    + destruct (decide (tb' = tb)) as [->|Htb].
      * rewrite lookup_insert_eq. by destruct (dataset_tables d !! tb).
      * by rewrite lookup_insert_ne.
    + destruct (decide (tb' = tb)) as [->|Htb].
      * by rewrite lookup_insert_eq, lookup_empty.
      * by rewrite lookup_insert_ne, lookup_empty.
  - by rewrite lookup_insert_ne.
Qed.

(** A successful load job appends the rows to its table and to no
    other. *)
Lemma load_job_appends env rows ds tb s w d t :
  load_job_fault env = None →
  warehouse w !! ds = Some d → dataset_tables d !! tb = Some t →
  ∃ w', load_job env rows ds tb s w = (Ok (), w') ∧
    (∀ ds' tb',
       rows_of (warehouse w') ds' tb' =
         rows_of (warehouse w) ds' tb' ++
           (if bool_decide (ds' = ds ∧ tb' = tb) then rows else [])) ∧
    (∃ d' t', warehouse w' !! ds = Some d' ∧ dataset_tables d' !! tb = Some t') ∧
    (∀ ds', ds' ≠ ds → warehouse w' !! ds' = warehouse w !! ds') ∧
    clock_reads w' = clock_reads w ∧
    open_handles w' = open_handles w ∧
    files w' = files w ∧
    stdout w' = stdout w.
Proof.
  intros Hjob Hd Ht. unfold load_job. rewrite Hjob, Hd, Ht.
  eexists. split; [reflexivity|]. cbn. split.
  { intros ds' tb'. unfold rows_of.
    destruct (decide (ds' = ds)) as [->|Hds].
    - rewrite lookup_insert_eq, Hd. cbn.
      destruct (decide (tb' = tb)) as [->|Htb].
      + rewrite lookup_insert_eq, Ht. cbn. by rewrite bool_decide_eq_true_2.
      + rewrite lookup_insert_ne by done.
        rewrite bool_decide_eq_false_2 by (by intros [_ ?]).
        by rewrite app_nil_r.
    - rewrite lookup_insert_ne by done.
      rewrite bool_decide_eq_false_2 by (by intros [? _]).
      by rewrite app_nil_r. }
  split.
  { eexists _, _. rewrite lookup_insert_eq. split; [done|]. cbn.
    apply lookup_insert_eq. }
  split; [intros ds' Hds; by apply lookup_insert_ne|]. done.
Qed.

(** The report after the load changes the console only. *)
Lemma report_result env w :
  ∃ w', (print ReportHeader;;
         report ← run_query env;
         for_each (λ r : string * spec_float * Z,
                     print (ReportLine r.1.1 r.1.2 r.2)) report;;
         mret ()) w =
        (match query_outcome env with
         | Ok _ => Ok ()
         | Raise e => Raise e
         end, w') ∧
    warehouse w' = warehouse w ∧ clock_reads w' = clock_reads w ∧
    open_handles w' = open_handles w ∧ files w' = files w.
Proof.
  unfold mbind at 1. unfold M_bind, print at 1.
  unfold mbind at 1. unfold M_bind, run_query at 1.
  destruct (query_outcome env) as [report|e]; [|by eexists].
  unfold mbind at 1. unfold M_bind.
  match goal with
  | |- context [for_each ?f report ?w0] =>
      destruct (for_each_print (λ r : string * spec_float * Z,
                                  ReportLine r.1.1 r.1.2 r.2) report w0)
        as (bs & w2 & -> & ? & ? & ? & ?)
  end.
  by eexists.
Qed.

(** What a run of the loader does to the world, whatever the load job and
    the reporting query answer. *)
Lemma load_to_bigquery_exact env data project_id dataset_id table_id w :
  ∃ w', load_to_bigquery env data project_id dataset_id table_id w =
          (load_outcome env, w') ∧
    (∀ ds tb,
       rows_of (warehouse w') ds tb =
         rows_of (warehouse w) ds tb ++
           (if bool_decide (ds = dataset_id ∧ tb = table_id ∧ load_job_fault env = None)
            then stamped env (clock_reads w) data else [])) ∧
    (∃ d t, warehouse w' !! dataset_id = Some d ∧
            dataset_tables d !! table_id = Some t) ∧
    (∀ ds, ds ≠ dataset_id → warehouse w' !! ds = warehouse w !! ds) ∧
    clock_reads w' = S (clock_reads w) ∧
    open_handles w' = open_handles w ∧
    files w' = files w.
Proof.
  unfold load_to_bigquery, load_outcome.
  unfold mbind at 1. unfold M_bind, print at 1.
  rewrite seq_assoc. fold (ensure_destination dataset_id table_id).
  unfold mbind at 1. unfold M_bind.
  destruct (ensure_destination_exact dataset_id table_id
              (set_stdout (stdout w ++ [LoadWriting project_id dataset_id table_id]) w))
    as (t & w1 & -> & Hw1 & (d & Hd & Ht) & Hclock & Hopen & Hfiles).
  cbn in Hw1, Hclock, Hopen, Hfiles.
  assert (∀ ds, ds ≠ dataset_id → warehouse w1 !! ds = warehouse w !! ds) as Hother.
  { intros ds Hds. rewrite Hw1. unfold ensured_warehouse. by apply lookup_insert_ne. }
  unfold mbind at 1. unfold M_bind. rewrite stamp_batch_result.
  unfold mbind at 1. unfold M_bind.
  destruct (load_job_fault env) as [e|] eqn:Hjob.
  - unfold load_job at 1. rewrite Hjob.
    eexists. split; [reflexivity|]. cbn. rewrite Hclock, Hopen, Hfiles.
    split.
    { intros ds tb. rewrite Hw1, rows_of_ensured.
      rewrite bool_decide_eq_false_2 by (by intros (_ & _ & ?)).
      by rewrite app_nil_r. }
    split; [by exists d, t|]. by repeat split.
  - destruct (load_job_appends env
                (stamped env (clock_reads w1) data) dataset_id table_id (Some schema)
                (set_clock_reads (S (clock_reads w1)) w1) d t Hjob Hd Ht)
      as (w2 & Hload & Hrows2 & Hthere & Hother2 & Hclock2 & Hopen2 & Hfiles2 & _).
    unfold stamped in Hload at 1. rewrite Hload.
    unfold mbind at 1. unfold M_bind, print at 1.
    match goal with
    | |- context [(print ReportHeader;; ?k) ?w0] =>
        destruct (report_result env w0) as (w3 & Hrep & Hw3 & Hclock3 & Hopen3 & Hfiles3)
    end.
    unfold M_bind in Hrep. rewrite Hrep.
    exists w3. split; [reflexivity|].
    cbn in Hw3, Hclock3, Hopen3, Hfiles3, Hrows2, Hother2, Hclock2, Hopen2, Hfiles2.
    rewrite Hw3, Hclock3, Hopen3, Hfiles3, Hclock2, Hopen2, Hfiles2, Hopen, Hfiles.
    split.
    { intros ds tb. rewrite Hrows2, Hw1, rows_of_ensured, Hclock.
      f_equal.
      by rewrite (bool_decide_ext (ds = dataset_id ∧ tb = table_id)
                   (ds = dataset_id ∧ tb = table_id ∧ @None exn = None))
        by (split; [intros [? ?]; by repeat split|intros (? & ? & _); by split]). }
    split; [done|].
    split; [intros ds Hds; by rewrite Hother2, Hother|]. by rewrite Hclock.
Qed.

(** X9: when the load job fails, [load_to_bigquery] ends with its
    exception; no table of the warehouse has gained or lost a row, but the
    dataset and the table it ensured are there (nothing is undone) and the
    clock has been read. *)
Theorem load_failure_keeps_rows (env : Env) (data : list Row)
    (project_id dataset_id table_id : string) (w : World) (e : exn) :
  load_job_fault env = Some e →
  ∃ w', load_to_bigquery env data project_id dataset_id table_id w = (Raise e, w') ∧
    (∀ ds tb, rows_of (warehouse w') ds tb = rows_of (warehouse w) ds tb) ∧
    (∃ d t, warehouse w' !! dataset_id = Some d ∧
            dataset_tables d !! table_id = Some t) ∧
    clock_reads w' = S (clock_reads w).
Proof.
  intros Hjob.
  destruct (load_to_bigquery_exact env data project_id dataset_id table_id w)
    as (w' & Hrun & Hrows & Hthere & _ & Hclock & _).
  unfold load_outcome in Hrun. rewrite Hjob in Hrun.
  exists w'. split; [done|]. split; [|done].
  intros ds tb. rewrite Hrows.
  rewrite bool_decide_eq_false_2 by (rewrite Hjob; by intros (_ & _ & ?)).
  by rewrite app_nil_r.
Qed.

Lemma load_failure_keeps_rows_witness :
  load_job_fault failing_load_env = Some GoogleAPIError ∧
  ∃ w', load_to_bigquery failing_load_env (omap accepted_record sample_rows)
          "your-project-id" "sales_data" "sales" empty_world =
          (Raise GoogleAPIError, w') ∧
    (∀ ds tb, rows_of (warehouse w') ds tb = rows_of (warehouse empty_world) ds tb) ∧
    (∃ d t, warehouse w' !! "sales_data" = Some d ∧
            dataset_tables d !! "sales" = Some t) ∧
    clock_reads w' = S (clock_reads empty_world).
Proof.
  split; [reflexivity|].
  apply (load_failure_keeps_rows failing_load_env). reflexivity.
Defined.

(** X10: loading the same batch twice appends it twice: after the second
    run the table holds its former rows, then the batch stamped with the
    first clock reading, then the batch stamped with the next one. *)
Theorem load_twice_appends_twice (env : Env) (data : list Row)
    (project_id dataset_id table_id : string) (w : World) :
  load_job_fault env = None →
  ∃ w1 w2,
    load_to_bigquery env data project_id dataset_id table_id w = (load_outcome env, w1) ∧
    load_to_bigquery env data project_id dataset_id table_id w1 = (load_outcome env, w2) ∧
    rows_of (warehouse w2) dataset_id table_id =
      rows_of (warehouse w) dataset_id table_id ++
        stamped env (clock_reads w) data ++ stamped env (S (clock_reads w)) data ∧
    length (rows_of (warehouse w2) dataset_id table_id) =
      (length (rows_of (warehouse w) dataset_id table_id) + 2 * length data)%nat.
Proof.
  intros Hjob.
  destruct (load_to_bigquery_exact env data project_id dataset_id table_id w)
    as (w1 & Hrun1 & Hrows1 & _ & _ & Hclock1 & _).
  destruct (load_to_bigquery_exact env data project_id dataset_id table_id w1)
    as (w2 & Hrun2 & Hrows2 & _).
  exists w1, w2. split; [done|]. split; [done|].
  assert (rows_of (warehouse w2) dataset_id table_id =
            rows_of (warehouse w) dataset_id table_id ++
              stamped env (clock_reads w) data ++ stamped env (S (clock_reads w)) data)
    as Hrows.
  { rewrite Hrows2, Hrows1, Hclock1, bool_decide_eq_true_2 by done.
    by rewrite <- app_assoc. }
  split; [done|]. rewrite Hrows, !length_app. unfold stamped.
  rewrite !length_fmap. lia.
Qed.

Lemma load_twice_appends_twice_witness :
  load_job_fault calm_env = None ∧
  ∃ w1 w2,
    load_to_bigquery calm_env sales_data "your-project-id" "sales_data" "sales"
      empty_world = (load_outcome calm_env, w1) ∧
    load_to_bigquery calm_env sales_data "your-project-id" "sales_data" "sales"
      w1 = (load_outcome calm_env, w2) ∧
    rows_of (warehouse w2) "sales_data" "sales" =
      rows_of (warehouse empty_world) "sales_data" "sales" ++
        stamped calm_env (clock_reads empty_world) sales_data ++
        stamped calm_env (S (clock_reads empty_world)) sales_data ∧
    length (rows_of (warehouse w2) "sales_data" "sales") =
      (length (rows_of (warehouse empty_world) "sales_data" "sales") +
       2 * length sales_data)%nat.
Proof.
  split; [reflexivity|].
  apply (load_twice_appends_twice calm_env). reflexivity.
Defined.

(** X11: whatever the load job and the reporting query answer, a run of
    the loader keeps every row that was in the warehouse: the rows of its
    own table are a prefix of what the table holds afterwards, every other
    table holds the rows it held, and every other dataset is the one it
    was. *)
Theorem load_touches_only_its_table (env : Env) (data : list Row)
    (project_id dataset_id table_id : string) (w : World) :
  ∃ w' added,
    load_to_bigquery env data project_id dataset_id table_id w = (load_outcome env, w') ∧
    rows_of (warehouse w') dataset_id table_id =
      rows_of (warehouse w) dataset_id table_id ++ added ∧
    (∀ ds tb, ¬ (ds = dataset_id ∧ tb = table_id) →
       rows_of (warehouse w') ds tb = rows_of (warehouse w) ds tb) ∧
    (∀ ds, ds ≠ dataset_id → warehouse w' !! ds = warehouse w !! ds) ∧
    open_handles w' = open_handles w ∧
    files w' = files w.
Proof.
  destruct (load_to_bigquery_exact env data project_id dataset_id table_id w)
    as (w' & Hrun & Hrows & _ & Hother & _ & Hopen & Hfiles).
  exists w'. eexists. split; [done|]. split; [apply Hrows|].
  split; [|done]. intros ds tb Hne. rewrite Hrows.
  rewrite bool_decide_eq_false_2 by (intros (? & ? & _); by apply Hne).
  by rewrite app_nil_r.
Qed.

(** X12: every row the loader hands to the load job, a dictionary of the
    transform stamped with [loaded_at], has exactly the columns of the
    schema of the table. *)
Theorem stamped_rows_match_schema (env : Env) (raw : list RawRecord)
    (out : list Row) (k : nat) (r : Row) :
  (transform_sales_data raw).2 = Ok out → r ∈ stamped env k out →
  dom r = schema_columns.
Proof.
  intros Hout (r0 & -> & Hr0)%list_elem_of_fmap.
  destruct (output_from_row raw out r0 Hout Hr0) as (row & _ & Hrow).
  destruct (try_row_record row r0 Hrow) as (q & p & d & _ & _ & _ & _ & _ & _ & _ & _ & _ & _ & Hdom).
  rewrite dom_insert_L, Hdom.
  apply (bool_decide_unpack _). vm_compute. exact I.
Qed.

(** X7: every dictionary of the output has a non-empty order id, a
    quantity above zero, a price that is not [<= 0], an order date of ten
    characters that parses as a date of the calendar, and exactly the
    columns of the destination schema except [loaded_at]. *)
Theorem output_records_are_validated (raw : list RawRecord) (out : list Row)
    (r : Row) :
  (transform_sales_data raw).2 = Ok out → r ∈ out →
  ∃ oid q p date d,
    r !! "order_id" = Some (VStr oid) ∧ oid ≠ "" ∧
    r !! "quantity" = Some (VInt q) ∧ 0 < q ∧
    r !! "price" = Some (VFloat p) ∧
    PyFloat.leb p (PyFloat.of_small_int 0) = false ∧
    r !! "order_date" = Some (VStr date) ∧
    String.length date = 10%nat ∧ PyDate.strptime date = Ok d ∧
    dom r = schema_columns ∖ {["loaded_at"]}.
Proof.
  intros Hout Hr.
  destruct (output_from_row raw out r Hout Hr) as (row & _ & Hrow).
  destruct (try_row_record row r Hrow)
    as (q & p & d & _ & Hq & _ & Hp & Hd & Hid & Hoid & Hquantity & Hprice & Hdate & Hdom).
  destruct (strptime_isoformat _ _ Hd) as [Hback Hlen].
  eexists _, q, p, _, d. by repeat (split; [eassumption|]).
Qed.

Lemma output_records_are_validated_witness :
  (transform_sales_data [total_1000_row]).2 = Ok [record_of total_1000_row] ∧
  record_of total_1000_row ∈ [record_of total_1000_row] ∧
  ∃ oid q p date d,
    record_of total_1000_row !! "order_id" = Some (VStr oid) ∧ oid ≠ "" ∧
    record_of total_1000_row !! "quantity" = Some (VInt q) ∧ 0 < q ∧
    record_of total_1000_row !! "price" = Some (VFloat p) ∧
    PyFloat.leb p (PyFloat.of_small_int 0) = false ∧
    record_of total_1000_row !! "order_date" = Some (VStr date) ∧
    String.length date = 10%nat ∧ PyDate.strptime date = Ok d ∧
    dom (record_of total_1000_row) = schema_columns ∖ {["loaded_at"]}.
Proof.
  assert ((transform_sales_data [total_1000_row]).2 = Ok [record_of total_1000_row])
    as Hout by (apply single_row_result; vm_compute; reflexivity).
  assert (record_of total_1000_row ∈ [record_of total_1000_row]) as Hin by left.
  exact (conj Hout (conj Hin (output_records_are_validated _ _ _ Hout Hin))).
Defined.

Lemma stamped_rows_match_schema_witness :
  (transform_sales_data [total_1000_row]).2 = Ok [record_of total_1000_row] ∧
  <["loaded_at" := VStr (utcnow_isoformat calm_env 0)]> (record_of total_1000_row)
    ∈ stamped calm_env 0 [record_of total_1000_row] ∧
  dom (<["loaded_at" := VStr (utcnow_isoformat calm_env 0)]> (record_of total_1000_row)) =
    schema_columns.
Proof.
  assert ((transform_sales_data [total_1000_row]).2 = Ok [record_of total_1000_row])
    as Hout by (apply single_row_result; vm_compute; reflexivity).
  assert (<["loaded_at" := VStr (utcnow_isoformat calm_env 0)]> (record_of total_1000_row)
            ∈ stamped calm_env 0 [record_of total_1000_row]) as Hin by left.
  exact (conj Hout (conj Hin (stamped_rows_match_schema _ _ _ _ _ Hout Hin))).
Defined.

(** * Further properties of the pipeline and of the other scripts *)

(** X13: when the CSV file is missing or reading it raises, the pipeline
    ends with that exception before anything else happens: the warehouse
    is untouched, the clock is not read and no handle stays open. *)
Theorem extraction_failure_stops_pipeline (env : Env)
    (csv_path project_id dataset_id table_id : string) (w : World) (e : exn) :
  default (Raise OSError) (files w !! csv_path) = Raise e →
  ∃ w', run_etl_pipeline env csv_path project_id dataset_id table_id w = (Raise e, w') ∧
    warehouse w' = warehouse w ∧
    clock_reads w' = clock_reads w ∧
    (∀ h, h ∈ open_handles w' → h ∈ open_handles w).
Proof.
  intros Hfile. unfold run_etl_pipeline.
  do 3 (unfold mbind at 1; unfold M_bind, print at 1).
  unfold mbind at 1. unfold M_bind.
  match goal with
  | |- context [extract_sales_data csv_path ?w0] =>
      destruct (extract_sales_data_releases csv_path w0) as (w1 & Hrun & Hopen & _);
      destruct (extract_sales_data_result csv_path w0)
        as (w1' & Hrun' & _ & Hwarehouse & Hclock & _)
  end.
  rewrite Hrun in Hrun'. injection Hrun' as <-. rewrite Hrun.
  cbn [files set_stdout] in *. rewrite Hfile.
  exists w1. split; [done|]. split; [done|]. split; [done|]. exact Hopen.
Qed.

Lemma extraction_failure_stops_pipeline_witness :
  default (Raise OSError) (files empty_world !! "sales_data.csv") = Raise OSError ∧
  ∃ w', run_etl_pipeline calm_env "sales_data.csv" "your-project-id" "sales_data"
          "sales" empty_world = (Raise OSError, w') ∧
    warehouse w' = warehouse empty_world ∧
    clock_reads w' = clock_reads empty_world ∧
    (∀ h, h ∈ open_handles w' → h ∈ open_handles empty_world).
Proof.
  split; [reflexivity|].
  apply (extraction_failure_stops_pipeline calm_env). reflexivity.
Defined.

(** X14: when the transform raises, the pipeline ends with that exception
    and the loader is never entered: the warehouse is untouched and the
    clock is not read. *)
Theorem transform_failure_stops_pipeline (env : Env) (raw : list RawRecord)
    (csv_path project_id dataset_id table_id : string) (w : World) (e : exn) :
  files w !! csv_path = Some (Ok raw) →
  (transform_sales_data raw).2 = Raise e →
  ∃ w', run_etl_pipeline env csv_path project_id dataset_id table_id w = (Raise e, w') ∧
    warehouse w' = warehouse w ∧
    clock_reads w' = clock_reads w ∧
    FileHandle csv_path ∉ open_handles w'.
Proof.
  intros Hfile Hraise. unfold run_etl_pipeline.
  do 3 (unfold mbind at 1; unfold M_bind, print at 1).
  unfold mbind at 1. unfold M_bind.
  match goal with
  | |- context [extract_sales_data csv_path ?w0] =>
      destruct (extract_sales_data_result csv_path w0)
        as (w1 & -> & Hopen & Hwarehouse & Hclock & _)
  end.
  cbn [files set_stdout open_handles] in *. rewrite Hfile in *.
  rewrite bool_decide_eq_false_2 in Hopen by done. cbn [from_option id].
  unfold mbind at 1. unfold M_bind, printing at 1. cbn beta. rewrite Hraise.
  eexists. split; [reflexivity|]. cbn. rewrite Hopen.
  split; [done|]. split; [done|]. apply filter_removes.
Qed.

Lemma transform_failure_stops_pipeline_witness :
  files overflow_csv_world !! "sales_data.csv" =
    Some (Ok (huge_quantity_row :: sample_rows)) ∧
  (transform_sales_data (huge_quantity_row :: sample_rows)).2 = Raise OverflowError ∧
  ∃ w', run_etl_pipeline calm_env "sales_data.csv" "your-project-id" "sales_data"
          "sales" overflow_csv_world = (Raise OverflowError, w') ∧
    warehouse w' = warehouse overflow_csv_world ∧
    clock_reads w' = clock_reads overflow_csv_world ∧
    FileHandle "sales_data.csv" ∉ open_handles w'.
Proof.
  assert (files overflow_csv_world !! "sales_data.csv" =
            Some (Ok (huge_quantity_row :: sample_rows))) as Hfile by reflexivity.
  assert ((transform_sales_data (huge_quantity_row :: sample_rows)).2 =
            Raise OverflowError) as Hraise by (vm_compute; reflexivity).
  exact (conj Hfile (conj Hraise
           (transform_failure_stops_pipeline calm_env _ _ _ _ _ _ _ Hfile Hraise))).
Defined.

(** The pipeline once the file has been read and transformed. *)
Lemma run_etl_pipeline_loaded env csv_path project_id dataset_id table_id
    raw out w :
  files w !! csv_path = Some (Ok raw) →
  (transform_sales_data raw).2 = Ok out →
  ∃ w', run_etl_pipeline env csv_path project_id dataset_id table_id w =
          (load_outcome env, w') ∧
    (∀ ds tb,
       rows_of (warehouse w') ds tb =
         rows_of (warehouse w) ds tb ++
           (if bool_decide (ds = dataset_id ∧ tb = table_id ∧ load_job_fault env = None)
            then stamped env (clock_reads w) out else [])) ∧
    clock_reads w' = S (clock_reads w) ∧
    open_handles w' = filter (λ h, h ≠ FileHandle csv_path) (open_handles w) ∧
    files w' = files w.
Proof.
  intros Hfile Hout. unfold run_etl_pipeline.
  do 3 (unfold mbind at 1; unfold M_bind, print at 1).
  unfold mbind at 1. unfold M_bind.
  match goal with
  | |- context [extract_sales_data csv_path ?w0] =>
      destruct (extract_sales_data_result csv_path w0)
        as (w1 & -> & Hopen1 & Hw1 & Hc1 & Hf1)
  end.
  cbn [files set_stdout open_handles warehouse clock_reads] in *.
  rewrite Hfile in *. rewrite bool_decide_eq_false_2 in Hopen1 by done.
  cbn [from_option id].
  unfold mbind at 1. unfold M_bind, printing at 1. cbn beta. rewrite Hout.
  unfold mbind at 1. unfold M_bind.
  match goal with
  | |- context [load_to_bigquery env out project_id dataset_id table_id ?w0] =>
      destruct (load_to_bigquery_exact env out project_id dataset_id table_id w0)
        as (w2 & -> & Hrows & _ & _ & Hc2 & Hopen2 & Hf2)
  end.
  cbn [files set_stdout open_handles warehouse clock_reads] in *.
  rewrite Hw1, Hc1 in Hrows.
  destruct (load_outcome env) as [[]|e].
  - unfold_M. eexists. split; [reflexivity|]. cbn.
    rewrite Hc2, Hc1, Hopen2, Hopen1, Hf2, Hf1. by repeat split.
  - eexists. split; [reflexivity|].
    rewrite Hc2, Hc1, Hopen2, Hopen1, Hf2, Hf1. by repeat split.
Qed.

(** X15: when the file is read and the transform returns, the pipeline
    ends as the loader ends; if the load job succeeded the destination
    table has gained exactly the dictionaries of the transform, in order,
    all stamped with the one clock reading of the run, and no other table
    has changed; the file is closed and the clock has been read once. *)
Theorem pipeline_appends_transformed_rows (env : Env) (raw : list RawRecord)
    (out : list Row) (csv_path project_id dataset_id table_id : string)
    (w : World) :
  files w !! csv_path = Some (Ok raw) →
  (transform_sales_data raw).2 = Ok out →
  load_job_fault env = None →
  ∃ w', run_etl_pipeline env csv_path project_id dataset_id table_id w =
          (load_outcome env, w') ∧
    rows_of (warehouse w') dataset_id table_id =
      rows_of (warehouse w) dataset_id table_id ++ stamped env (clock_reads w) out ∧
    (∀ ds tb, ¬ (ds = dataset_id ∧ tb = table_id) →
       rows_of (warehouse w') ds tb = rows_of (warehouse w) ds tb) ∧
    clock_reads w' = S (clock_reads w) ∧
    FileHandle csv_path ∉ open_handles w'.
Proof.
  intros Hfile Hout Hjob.
  destruct (run_etl_pipeline_loaded env csv_path project_id dataset_id table_id
              raw out w Hfile Hout) as (w' & Hrun & Hrows & Hclock & Hopen & _).
  exists w'. split; [done|]. split.
  { by rewrite Hrows, bool_decide_eq_true_2. }
  split.
  { intros ds tb Hne. rewrite Hrows.
    rewrite bool_decide_eq_false_2 by (intros (? & ? & _); by apply Hne).
    by rewrite app_nil_r. }
  split; [done|]. rewrite Hopen. apply filter_removes.
Qed.

Lemma pipeline_appends_transformed_rows_witness :
  files csv_world !! "sales_data.csv" = Some (Ok sample_rows) ∧
  (transform_sales_data sample_rows).2 = Ok (omap accepted_record sample_rows) ∧
  load_job_fault calm_env = None ∧
  ∃ w', run_etl_pipeline calm_env "sales_data.csv" "your-project-id" "sales_data"
          "sales" csv_world = (load_outcome calm_env, w') ∧
    rows_of (warehouse w') "sales_data" "sales" =
      rows_of (warehouse csv_world) "sales_data" "sales" ++
        stamped calm_env (clock_reads csv_world) (omap accepted_record sample_rows) ∧
    (∀ ds tb, ¬ (ds = "sales_data" ∧ tb = "sales") →
       rows_of (warehouse w') ds tb = rows_of (warehouse csv_world) ds tb) ∧
    clock_reads w' = S (clock_reads csv_world) ∧
    FileHandle "sales_data.csv" ∉ open_handles w'.
Proof.
  assert (files csv_world !! "sales_data.csv" = Some (Ok sample_rows)) as Hfile
    by reflexivity.
  assert (load_job_fault calm_env = None) as Hjob by reflexivity.
  exact (conj Hfile (conj sample_rows_result (conj Hjob
           (pipeline_appends_transformed_rows calm_env _ _ _ _ _ _ _
              Hfile sample_rows_result Hjob)))).
Defined.

(** A load job into an existing dataset appends to its table, creating
    the table when it is missing. *)
Lemma load_job_into_dataset env rows ds tb s w d :
  load_job_fault env = None → warehouse w !! ds = Some d →
  ∃ w', load_job env rows ds tb s w = (Ok (), w') ∧
    rows_of (warehouse w') ds tb = rows_of (warehouse w) ds tb ++ rows ∧
    clock_reads w' = clock_reads w ∧ open_handles w' = open_handles w ∧
    stdout w' = stdout w.
Proof.
  intros Hjob Hd. unfold load_job. rewrite Hjob, Hd.
  eexists. split; [reflexivity|]. cbn. split; [|done].
  unfold rows_of. rewrite lookup_insert_eq, Hd. cbn. rewrite lookup_insert_eq.
  by destruct (dataset_tables d !! tb).
Qed.

(** X17: in [2a.EL.py], once the connection is made and the query has
    returned, the connection is closed before the load starts: it is not
    open at the end of the script whatever the load job does, and when the
    dataset exists and the load job succeeds the rows read are appended to
    [analytics.orders_raw]. *)
Theorem el_orders_script_closes_after_read (env : Env) (df : list Row) (w : World) :
  mssql_connect env = None → mssql_read_sql env = Ok df →
  ∃ r w', el_orders_script env w = (r, w') ∧
    (Connection connection_string ∉ open_handles w') ∧
    (∀ h, h ∈ open_handles w' → h ∈ open_handles w) ∧
    (∀ d, load_job_fault env = None → warehouse w !! "analytics" = Some d →
       r = Ok () ∧
       rows_of (warehouse w') "analytics" "orders_raw" =
         rows_of (warehouse w) "analytics" "orders_raw" ++ df) ∧
    (∀ e, load_job_fault env = Some e → r = Raise e ∧ warehouse w' = warehouse w).
Proof.
  intros Hconnect Hread. unfold el_orders_script, connect, read_sql.
  rewrite Hconnect.
  unfold mbind at 1. unfold M_bind. unfold mbind at 1. unfold M_bind, acquire at 1.
  unfold mret at 1. unfold M_ret.
  unfold mbind at 1. unfold M_bind. rewrite Hread.
  unfold mbind at 1. unfold M_bind, close at 1, release.
  cbn [open_handles set_open_handles].
  rewrite filter_cons_False by (intros H; by apply H).
  unfold mbind at 1. unfold M_bind, print at 1.
  unfold mbind at 1. unfold M_bind.
  set (w0 := set_stdout _ _).
  assert (open_handles w0 =
            filter (λ h, h ≠ Connection connection_string) (open_handles w)) as Hopen0
    by reflexivity.
  assert (warehouse w0 = warehouse w) as Hw0 by reflexivity.
  destruct (load_job_fault env) as [e|] eqn:Hjob.
  - unfold load_job. rewrite Hjob. eexists _, _. split; [reflexivity|].
    rewrite Hopen0. split; [apply filter_removes|].
    split; [intros h; apply filter_keeps|]. split; [done|].
    intros e' [= <-]. by split.
  - destruct (warehouse w !! "analytics") as [d|] eqn:Hd.
    + destruct (load_job_into_dataset env df "analytics" "orders_raw" None w0 d Hjob)
        as (w1 & -> & Hrows & _ & Hopen1 & _); [by rewrite Hw0|].
      unfold print. eexists _, _. split; [reflexivity|]. cbn.
      rewrite Hopen1, Hopen0. split; [apply filter_removes|].
      split; [intros h; apply filter_keeps|]. split; [|done].
      intros d' _ _. split; [done|]. by rewrite Hrows, Hw0.
    + unfold load_job. rewrite Hjob, Hw0, Hd. eexists _, _. split; [reflexivity|].
      rewrite Hopen0. split; [apply filter_removes|].
      split; [intros h; apply filter_keeps|]. by split.
Qed.

Lemma el_orders_script_closes_after_read_witness :
  mssql_connect calm_env = None ∧ mssql_read_sql calm_env = Ok [] ∧
  ∃ r w', el_orders_script calm_env empty_world = (r, w') ∧
    (Connection connection_string ∉ open_handles w') ∧
    (∀ h, h ∈ open_handles w' → h ∈ open_handles empty_world).
Proof.
  split; [reflexivity|]. split; [reflexivity|].
  destruct (el_orders_script_closes_after_read calm_env [] empty_world eq_refl eq_refl)
    as (r & w' & Hrun & Hclosed & Hopen & _).
  by exists r, w'.
Defined.

(** X18: in [3a.ETL.py], when the dataset exists and the load job
    succeeds, the three hard-coded rows are appended to
    [sales_data.sales] in their order, each with its own fields unchanged
    and its own clock reading added, and the clock has been read three
    times. *)
Theorem etl_to_bigquery_appends_rows (env : Env) (w : World) (d : dataset) :
  load_job_fault env = None → warehouse w !! "sales_data" = Some d →
  ∃ w' added,
    etl_to_bigquery env w = (Ok (), w') ∧
    rows_of (warehouse w') "sales_data" "sales" =
      rows_of (warehouse w) "sales_data" "sales" ++ added ∧
    length added = 3%nat ∧
    (∀ i row, sales_data !! i = Some row →
       ∃ row', added !! i = Some row' ∧
         row' !! "loaded_at" =
           Some (VStr (utcnow_isoformat env (clock_reads w + i))) ∧
         ∀ key, key ≠ "loaded_at" → row' !! key = row !! key) ∧
    clock_reads w' = (clock_reads w + 3)%nat ∧
    stdout w' = stdout w ++ [LoadedRows 3].
Proof.
  intros Hjob Hd. unfold etl_to_bigquery.
  unfold mbind at 1. unfold M_bind. rewrite add_timestamp_result.
  unfold mbind at 1. unfold M_bind.
  match goal with
  | |- context [load_job env ?rows _ _ _ ?w0] =>
      destruct (load_job_into_dataset env rows "sales_data" "sales" None w0 d Hjob)
        as (w1 & -> & Hrows & Hclock & _ & Hout); [done|]
  end.
  unfold print. eexists _, _. split; [reflexivity|].
  cbn [warehouse clock_reads stdout set_stdout set_clock_reads] in *.
  split; [exact Hrows|]. split; [by rewrite length_imap|].
  split; [|by rewrite Hclock, Hout].
  intros i row Hrow. rewrite list_lookup_imap, Hrow. cbn [fmap option_fmap option_map].
  eexists. split; [done|]. split; [apply lookup_insert_eq|].
  intros key Hkey. by apply lookup_insert_ne.
Qed.

Lemma etl_to_bigquery_appends_rows_witness :
  load_job_fault calm_env = None ∧
  warehouse sales_world !! "sales_data" =
    Some {| dataset_location := "US"; dataset_tables := ∅ |} ∧
  ∃ w' added,
    etl_to_bigquery calm_env sales_world = (Ok (), w') ∧
    rows_of (warehouse w') "sales_data" "sales" =
      rows_of (warehouse sales_world) "sales_data" "sales" ++ added ∧
    length added = 3%nat.
Proof.
  assert (warehouse sales_world !! "sales_data" =
            Some {| dataset_location := "US"; dataset_tables := ∅ |}) as Hd
    by reflexivity.
  destruct (etl_to_bigquery_appends_rows calm_env sales_world _ eq_refl Hd)
    as (w' & added & Hrun & Hrows & Hlen & _).
  split; [reflexivity|]. split; [exact Hd|]. by exists w', added.
Defined.

(** X19: [extract_sales_data] returns the rows of the file as they are,
    or raises what opening or reading raised; in every case each handle
    open afterwards was open before, the file it opened is closed, and
    nothing but the console has changed; on success it has printed the
    path and the number of rows. *)
Theorem extract_sales_data_scoped (csv_path : string) (w : World) :
  ∃ w', extract_sales_data csv_path w =
          (default (Raise OSError) (files w !! csv_path), w') ∧
    (∀ h, h ∈ open_handles w' → h ∈ open_handles w) ∧
    (is_Some (files w !! csv_path) → FileHandle csv_path ∉ open_handles w') ∧
    warehouse w' = warehouse w ∧ clock_reads w' = clock_reads w ∧
    files w' = files w ∧
    (∀ rows, files w !! csv_path = Some (Ok rows) →
       stdout w' = stdout w ++ [ExtractReading csv_path; ExtractedCount (length rows)]).
Proof.
  unfold extract_sales_data, with_open. unfold_M. cbn [files set_stdout].
  assert (∀ l, filter (λ h, h ≠ FileHandle csv_path) (FileHandle csv_path :: l)
               = filter (λ h, h ≠ FileHandle csv_path) l) as Hfilter.
  { intros l. apply filter_cons_False. by intros H. }
  unfold release. cbn [files open_handles set_stdout set_open_handles].
  destruct (files w !! csv_path) as [[rows|e]|] eqn:Hfile.
  - rewrite bool_decide_eq_false_2, Hfilter by done.
    eexists. split; [reflexivity|]. cbn.
    split; [intros h; apply filter_keeps|].
    split; [intros _; apply filter_removes|].
    repeat (split; [done|]). intros rows' [= <-]. by rewrite <- app_assoc.
  - rewrite bool_decide_eq_false_2, Hfilter by done.
    eexists. split; [reflexivity|]. cbn.
    split; [intros h; apply filter_keeps|].
    split; [intros _; apply filter_removes|]. by repeat split.
  - rewrite bool_decide_eq_true_2 by done.
    eexists. split; [reflexivity|]. cbn.
    split; [done|]. split; [by intros [? ?]|]. by repeat split.
Qed.

(** X20: an infinite price passes the validity test: with the other
    fields valid and a quantity that converts to a positive float, the
    row is enriched with an infinite [total_amount], a [discount_rate] of
    [0.1], an infinite [final_amount] and the category ["High Value"]. *)
Theorem infinite_price_is_high_value (row : RawRecord) (q : Z) (d : PyDate.date)
    (m : positive) (e : Z) :
  PyStr.strip (get row "order_id" "") ≠ "" →
  PyInt.of_str (get row "quantity" "0") = Ok q → 0 < q →
  PyFloat.of_str (get row "price" "0") = Ok (S754_infinity false) →
  PyDate.strptime (PyStr.strip (get row "order_date" "")) = Ok d →
  PyFloat.of_int q = Ok (S754_finite false m e) →
  ∃ r, (transform_sales_data [row]).2 = Ok [r] ∧
    r !! "total_amount" = Some (VFloat (S754_infinity false)) ∧
    r !! "discount_rate" = Some (VFloat f_tenth) ∧
    r !! "final_amount" = Some (VFloat (S754_infinity false)) ∧
    r !! "category" = Some (VStr "High Value").
Proof.
  intros Hid Hq Hpos Hp Hd Hf.
  assert (try_row row = Ok (Some (record_of row)) ∧
          record_of row !! "total_amount" = Some (VFloat (S754_infinity false)) ∧
          record_of row !! "discount_rate" = Some (VFloat f_tenth) ∧
          record_of row !! "final_amount" = Some (VFloat (S754_infinity false)) ∧
          record_of row !! "category" = Some (VStr "High Value")) as (Hrow & Hrest).
  { unfold record_of, accepted_record, try_row. rewrite Hq, Hp. step_try_row.
    rewrite bool_decide_eq_false_2, (proj2 (Z.leb_gt _ _)) by done.
    step_try_row. rewrite Hd, Hf. step_try_row.
    change (PyFloat.mul (S754_finite false m e) (S754_infinity false))
      with (S754_infinity false).
    change (PyFloat.round2 (S754_infinity false)) with (S754_infinity false).
    change (PyFloat.ltb (PyFloat.of_small_int 1000) (S754_infinity false)) with true.
    cbn match.
    assert (PyFloat.mul (S754_infinity false)
              (PyFloat.sub (PyFloat.of_small_int 1) f_tenth) = S754_infinity false)
      as -> by (vm_compute; reflexivity).
    change (PyFloat.round2 (S754_infinity false)) with (S754_infinity false).
    split; [reflexivity|]. by repeat split. }
  exists (record_of row). split; [|exact Hrest].
  apply single_row_result. unfold accepts. by rewrite Hrow.
Qed.

Lemma infinite_price_is_high_value_witness :
  PyStr.strip (get infinite_price_row "order_id" "") ≠ "" ∧
  PyInt.of_str (get infinite_price_row "quantity" "0") = Ok 2 ∧ 0 < 2 ∧
  PyFloat.of_str (get infinite_price_row "price" "0") = Ok (S754_infinity false) ∧
  PyDate.strptime (PyStr.strip (get infinite_price_row "order_date" "")) =
    Ok {| PyDate.year := 2026; PyDate.month := 2; PyDate.day := 26 |} ∧
  PyFloat.of_int 2 = Ok (S754_finite false 4503599627370496 (-51)) ∧
  ∃ r, (transform_sales_data [infinite_price_row]).2 = Ok [r] ∧
    r !! "total_amount" = Some (VFloat (S754_infinity false)) ∧
    r !! "discount_rate" = Some (VFloat f_tenth) ∧
    r !! "final_amount" = Some (VFloat (S754_infinity false)) ∧
    r !! "category" = Some (VStr "High Value").
Proof.
  assert (PyStr.strip (get infinite_price_row "order_id" "") ≠ "") as H1
    by (vm_compute; discriminate).
  assert (PyInt.of_str (get infinite_price_row "quantity" "0") = Ok 2) as H2
    by (vm_compute; reflexivity).
  assert (0 < 2) as H3 by lia.
  assert (PyFloat.of_str (get infinite_price_row "price" "0") =
            Ok (S754_infinity false)) as H4 by (vm_compute; reflexivity).
  assert (PyDate.strptime (PyStr.strip (get infinite_price_row "order_date" "")) =
            Ok {| PyDate.year := 2026; PyDate.month := 2; PyDate.day := 26 |}) as H5
    by (vm_compute; reflexivity).
  assert (PyFloat.of_int 2 = Ok (S754_finite false 4503599627370496 (-51))) as H6
    by (vm_compute; reflexivity).
  exact (conj H1 (conj H2 (conj H3 (conj H4 (conj H5 (conj H6
           (infinite_price_is_high_value _ _ _ _ _ H1 H2 H3 H4 H5 H6))))))).
Defined.
